(** * The Stripe webhook-endpoint resource of the Terraform provider

    A shallow embedding of [stripe/resource_stripe_webhook_endpoint.go]:
    the four lifecycle handlers (Read, Create, Update, Delete) run in a
    small state monad over the two objects they mutate, the SDK's
    [*schema.ResourceData] and the remote service behind [*client.API]. *)

From stdpp Require Import gmap strings list fin_maps.

#[local] Open Scope string_scope.
#[local] Open Scope list_scope.

(** ** Go values *)

(** Go's [error]: [None] is [nil], [Some msg] an error whose [Error()]
    is [msg]. *)
Definition error : Type := option string.

(** The pair [(value, err)] returned by the remote client, of which
    exactly one side is meaningful. *)
Inductive result (A : Type) : Type :=
| Ok (a : A)
| Err (msg : string).
Arguments Ok {A} a.
Arguments Err {A} msg.

(** The dynamic values ([interface{}]) that travel between the handlers
    and the resource data.  The element type of lists and maps is fixed
    to string by the schema ([Elem: &schema.Schema{Type: TypeString}]). *)
Inductive Value : Type :=
| VNil
| VString (s : string)
| VBool (b : bool)
| VList (l : list string)
| VMap (m : gmap string string).

#[global] Instance Value_eq_dec : EqDecision Value.
Proof. solve_decision. Defined.

#[global] Instance Value_inhabited : Inhabited Value := populate VNil.

(** ** package errors *)
Module errors.
Definition New (text : string) : error := Some text.
End errors.

(** ** package diag of the plugin SDK *)
Module diag.
Inductive Severity : Type := Error | Warning.

Record Diagnostic : Type := mkDiagnostic {
  severity : Severity;
  Summary : string
}.

Definition Diagnostics : Type := list Diagnostic.

(** [diag.FromErr]: nothing for [nil], otherwise a single Error
    diagnostic whose summary is the error's message. *)
Definition FromErr (err : error) : Diagnostics :=
  match err with
  | None => []
  | Some msg => [ {| severity := Error; Summary := msg |} ]
  end.
End diag.

(** ** package schema of the plugin SDK *)
Module schema.
Inductive ValueType : Type := TypeBool | TypeString | TypeList | TypeMap.

Record Schema : Type := mkSchema {
  Type_ : ValueType;
  Required : bool;
  Optional : bool;
  Computed : bool;
  Sensitive : bool;
  Default : Value
}.

(** [Type.Zero()] *)
Definition Zero (t : ValueType) : Value :=
  match t with
  | TypeBool => VBool false
  | TypeString => VString ""
  | TypeList => VList []
  | TypeMap => VMap ∅
  end.

(** The state behind a [*schema.ResourceData].  The SDK reads a field
    through levels: the last resolved state, the state with the
    planned diff applied, and the values the running handler has
    written with [Set].  [rd_reject] says which writes the store
    refuses and with what error; [rd_trace] records every [Set]
    attempted, in order, and is read by no operation. *)
Record ResourceData : Type := mkResourceData {
  rd_schema : gmap string Schema;
  rd_id : string;
  rd_state : gmap string Value;
  rd_plan : gmap string Value;
  rd_set : gmap string Value;
  rd_reject : string -> Value -> error;
  rd_trace : list (string * Value)
}.

Definition zero_of (d : ResourceData) (key : string) : Value :=
  match rd_schema d !! key with
  | Some s => Zero (Type_ s)
  | None => VNil
  end.

Definition Id (d : ResourceData) : string := rd_id d.

Definition SetId (v : string) (d : ResourceData) : ResourceData :=
  {| rd_schema := rd_schema d; rd_id := v; rd_state := rd_state d;
     rd_plan := rd_plan d; rd_set := rd_set d;
     rd_reject := rd_reject d; rd_trace := rd_trace d |}.

(** [d.Get(key)]: the topmost level that has the key, else the zero
    value of the key's type. *)
Definition Get (d : ResourceData) (key : string) : Value :=
  match rd_set d !! key with
  | Some v => v
  | None =>
      match rd_plan d !! key with
      | Some v => v
      | None => zero_of d key
      end
  end.

(** [d.GetOk(key)]: the value, and whether it is set to something
    other than the zero value of its type. *)
Definition GetOk (d : ResourceData) (key : string) : Value * bool :=
  let value := Get d key in
  (value, bool_decide (value ≠ zero_of d key)).

(** [d.HasChange(key)]: the planned value differs from the one of the
    last resolved state.  Writes of the running handler are not
    looked at. *)
Definition GetChange (d : ResourceData) (key : string) : Value * Value :=
  (default (zero_of d key) (rd_state d !! key),
   default (zero_of d key) (rd_plan d !! key)).

Definition HasChange (d : ResourceData) (key : string) : bool :=
  let '(o, n) := GetChange d key in bool_decide (n ≠ o).

(** [d.Set(key, value)]: a refused write returns its error and leaves
    the fields as they are. *)
Definition Set_ (key : string) (value : Value) (d : ResourceData)
  : error * ResourceData :=
  let tr := rd_trace d ++ [(key, value)] in
  match rd_reject d key value with
  | Some msg =>
      (Some msg,
       {| rd_schema := rd_schema d; rd_id := rd_id d;
          rd_state := rd_state d; rd_plan := rd_plan d;
          rd_set := rd_set d;
          rd_reject := rd_reject d; rd_trace := tr |})
  | None =>
      (None,
       {| rd_schema := rd_schema d; rd_id := rd_id d;
          rd_state := rd_state d; rd_plan := rd_plan d;
          rd_set := <[key := value]> (rd_set d);
          rd_reject := rd_reject d; rd_trace := tr |})
  end.
End schema.

(** ** package stripe of stripe-go *)
Module stripe.
(** [WebhookEndpointParams]: every field is a pointer, slice or map,
    and [nil] ([None]) means the field is not part of the request. *)
Record WebhookEndpointParams : Type := mkParams {
  URL : option string;
  EnabledEvents : option (list string);
  Description : option string;
  Disabled : option bool;
  Metadata : option (gmap string string)
}.

(** [&stripe.WebhookEndpointParams{}] *)
Definition emptyParams : WebhookEndpointParams :=
  {| URL := None; EnabledEvents := None; Description := None;
     Disabled := None; Metadata := None |}.

Definition String (v : string) : option string := Some v.
Definition Bool (v : bool) : option bool := Some v.
(** [stripe.StringSlice] allocates its result with [make], so the
    slice is never [nil], also for an empty input. *)
Definition StringSlice (v : list string) : option (list string) := Some v.

(** [Params.AddMetadata]: allocates the map on first use. *)
Definition AddMetadata (key value : string) (p : WebhookEndpointParams)
  : WebhookEndpointParams :=
  {| URL := URL p; EnabledEvents := EnabledEvents p;
     Description := Description p; Disabled := Disabled p;
     Metadata := Some (<[key := value]> (default ∅ (Metadata p))) |}.

Record WebhookEndpoint : Type := mkWebhookEndpoint {
  we_ID : string;
  we_Secret : string;
  we_Status : string;
  we_EnabledEvents : list string;
  we_URL : string;
  we_Description : string;
  we_Metadata : gmap string string
}.

(** One call on [c.WebhookEndpoints], with its arguments. *)
Inductive Call : Type :=
| CallGet (id : string)
| CallNew (params : WebhookEndpointParams)
| CallUpdate (id : string) (params : WebhookEndpointParams)
| CallDel (id : string).
End stripe.

(** ** package client of stripe-go *)
Module client.
(** The remote service as seen through [c.WebhookEndpoints]: each
    method answers from the calls made so far and its arguments. *)
Record API : Type := mkAPI {
  Get : list stripe.Call -> string -> result stripe.WebhookEndpoint;
  New : list stripe.Call -> stripe.WebhookEndpointParams
        -> result stripe.WebhookEndpoint;
  Update : list stripe.Call -> string -> stripe.WebhookEndpointParams
           -> result stripe.WebhookEndpoint;
  Del : list stripe.Call -> string -> result stripe.WebhookEndpoint
}.
End client.

(** ** Helpers of the provider package *)

(** Modelled from the spec: the field coercion helpers [ToString],
    [ToBool], [ToStringSlice] and [ToMap] of the provider package are
    not part of this file; they "convert store's generic values to typed
    values (string, bool, list-of-string, map-of-string)".  A value of
    another dynamic type converts to the zero value of the target. *)
Definition ToString (value : Value) : string :=
  match value with
  | VString s => s
  | _ => ""
  end.

Definition ToBool (value : Value) : bool :=
  match value with
  | VBool b => b
  | _ => false
  end.

Definition ToStringSlice (value : Value) : list string :=
  match value with
  | VList l => l
  | _ => []
  end.

(** The result is a [map[string]interface{}]: its values are dynamic
    again, and are strings here. *)
Definition ToMap (value : Value) : gmap string Value :=
  match value with
  | VMap m => VString <$> m
  | _ => ∅
  end.

(** Modelled from the spec: the typed field accessors [String], [Bool],
    [StringSlice] and [Map] of the provider package are not part of this
    file; each reads the field from the store and coerces it. *)
Definition String (d : schema.ResourceData) (key : string) : string :=
  ToString (schema.Get d key).

Definition Bool (d : schema.ResourceData) (key : string) : bool :=
  ToBool (schema.Get d key).

Definition StringSlice (d : schema.ResourceData) (key : string) : list string :=
  ToStringSlice (schema.Get d key).

Definition Map (d : schema.ResourceData) (key : string) : gmap string Value :=
  ToMap (schema.Get d key).

(** Modelled from the spec: [CallSet] of the provider package is not
    part of this file; "write-back failures for any field are collected
    and returned together, not short-circuited on the first failure".
    Its arguments are the results of the writes, already performed when
    it is called. *)
Fixpoint CallSet (err : list error) : diag.Diagnostics :=
  match err with
  | [] => []
  | e :: rest =>
      match e with
      | Some _ => diag.FromErr e ++ CallSet rest
      | None => CallSet rest
      end
  end.

(** The type assertion [v.(string)].  Go panics when the dynamic type
    is not string; the values it is applied to come out of [Map], which
    yields strings only (lemma [Map_values_are_strings]). *)
Definition assert_string (v : Value) : string :=
  match v with
  | VString s => s
  | _ => ""
  end.

(** ** The handlers' effects *)

(** What a handler can change: the resource data behind the pointer [d]
    and the remote service, of which the calls made so far are kept. *)
Record World : Type := mkWorld {
  data : schema.ResourceData;
  calls : list stripe.Call
}.

Definition M (A : Type) : Type := World -> A * World.

Definition ret {A} (a : A) : M A := fun w => (a, w).

Definition bind {A B} (m : M A) (k : A -> M B) : M B :=
  fun w => let '(a, w') := m w in k a w'.

Declare Scope go_scope.
Delimit Scope go_scope with go.
Notation "x <- c ;; k" := (bind c (fun x => k))
  (at level 100, c at next level, right associativity) : go_scope.
#[local] Open Scope go_scope.

(** Reading through [d]. *)
Definition rd {A} (f : schema.ResourceData -> A) : M A :=
  fun w => (f (data w), w).

(** [d.Set(key, value)] *)
Definition d_Set (key : string) (value : Value) : M error :=
  fun w =>
    let '(e, d') := schema.Set_ key value (data w) in
    (e, {| data := d'; calls := calls w |}).

(** [d.SetId(v)] *)
Definition d_SetId (v : string) : M unit :=
  fun w => (tt, {| data := schema.SetId v (data w); calls := calls w |}).

(** The four methods of [c.WebhookEndpoints]; the [nil] options
    argument of [Get] and [Del] is left out. *)
Definition WebhookEndpoints_Get (c : client.API) (id : string)
  : M (result stripe.WebhookEndpoint) :=
  fun w => (client.Get c (calls w) id,
            {| data := data w; calls := calls w ++ [stripe.CallGet id] |}).

Definition WebhookEndpoints_New (c : client.API)
  (params : stripe.WebhookEndpointParams) : M (result stripe.WebhookEndpoint) :=
  fun w => (client.New c (calls w) params,
            {| data := data w; calls := calls w ++ [stripe.CallNew params] |}).

Definition WebhookEndpoints_Update (c : client.API) (id : string)
  (params : stripe.WebhookEndpointParams) : M (result stripe.WebhookEndpoint) :=
  fun w => (client.Update c (calls w) id params,
            {| data := data w;
               calls := calls w ++ [stripe.CallUpdate id params] |}).

Definition WebhookEndpoints_Del (c : client.API) (id : string)
  : M (result stripe.WebhookEndpoint) :=
  fun w => (client.Del c (calls w) id,
            {| data := data w; calls := calls w ++ [stripe.CallDel id] |}).

(** Assignments to the fields of [params]. *)
Definition set_URL (v : option string) (p : stripe.WebhookEndpointParams) :=
  {| stripe.URL := v; stripe.EnabledEvents := stripe.EnabledEvents p;
     stripe.Description := stripe.Description p;
     stripe.Disabled := stripe.Disabled p;
     stripe.Metadata := stripe.Metadata p |}.

Definition set_EnabledEvents (v : option (list string))
  (p : stripe.WebhookEndpointParams) :=
  {| stripe.URL := stripe.URL p; stripe.EnabledEvents := v;
     stripe.Description := stripe.Description p;
     stripe.Disabled := stripe.Disabled p;
     stripe.Metadata := stripe.Metadata p |}.

Definition set_Description (v : option string)
  (p : stripe.WebhookEndpointParams) :=
  {| stripe.URL := stripe.URL p;
     stripe.EnabledEvents := stripe.EnabledEvents p;
     stripe.Description := v;
     stripe.Disabled := stripe.Disabled p;
     stripe.Metadata := stripe.Metadata p |}.

Definition set_Disabled (v : option bool) (p : stripe.WebhookEndpointParams) :=
  {| stripe.URL := stripe.URL p;
     stripe.EnabledEvents := stripe.EnabledEvents p;
     stripe.Description := stripe.Description p;
     stripe.Disabled := v;
     stripe.Metadata := stripe.Metadata p |}.

Definition set_Metadata (v : option (gmap string string))
  (p : stripe.WebhookEndpointParams) :=
  {| stripe.URL := stripe.URL p;
     stripe.EnabledEvents := stripe.EnabledEvents p;
     stripe.Description := stripe.Description p;
     stripe.Disabled := stripe.Disabled p;
     stripe.Metadata := v |}.

(** ** resource_stripe_webhook_endpoint.go *)

(** The [Schema] of [resourceStripeWebhookEndpoint()]. *)
Definition resourceStripeWebhookEndpoint_Schema : gmap string schema.Schema :=
  list_to_map [
    ("id", schema.mkSchema schema.TypeString false false true false VNil);
    ("enabled_events", schema.mkSchema schema.TypeList true false false false VNil);
    ("url", schema.mkSchema schema.TypeString true false false false VNil);
    ("description", schema.mkSchema schema.TypeString false true false false VNil);
    ("secret", schema.mkSchema schema.TypeString false false true true VNil);
    ("disabled", schema.mkSchema schema.TypeBool false true false false (VBool false));
    ("metadata", schema.mkSchema schema.TypeMap false true false false VNil)
  ].

Definition resourceStripeWebhookEndpointRead (m : client.API)
  : M diag.Diagnostics :=
  let c := m in
  id <- rd schema.Id ;;
  r <- WebhookEndpoints_Get c id ;;
  match r with
  | Err err => ret (diag.FromErr (Some err))
  | Ok webhookEndpoint =>
      let disabled := true in
      let disabled :=
        if String.eqb (stripe.we_Status webhookEndpoint) "enabled"
        then false else disabled in
      e1 <- d_Set "enabled_events"
              (VList (stripe.we_EnabledEvents webhookEndpoint)) ;;
      e2 <- d_Set "url" (VString (stripe.we_URL webhookEndpoint)) ;;
      e3 <- d_Set "description"
              (VString (stripe.we_Description webhookEndpoint)) ;;
      e4 <- d_Set "disabled" (VBool disabled) ;;
      e5 <- d_Set "metadata" (VMap (stripe.we_Metadata webhookEndpoint)) ;;
      ret (CallSet [e1; e2; e3; e4; e5])
  end.

Definition resourceStripeWebhookEndpointCreate (m : client.API)
  : M diag.Diagnostics :=
  let c := m in
  ok <- rd (fun d => schema.GetOk d "disabled") ;;
  let '(disabled, set) := ok in
  if set && ToBool disabled then
    ret (diag.FromErr
           (errors.New "disabled can be set when updating existing webhook only"))
  else
    url <- rd (fun d => String d "url") ;;
    enabled_events <- rd (fun d => StringSlice d "enabled_events") ;;
    let params :=
      {| stripe.URL := stripe.String url;
         stripe.EnabledEvents := stripe.StringSlice enabled_events;
         stripe.Description := None;
         stripe.Disabled := None;
         stripe.Metadata := None |} in
    ok <- rd (fun d => schema.GetOk d "description") ;;
    let '(description, set) := ok in
    let params :=
      if set then set_Description (stripe.String (ToString description)) params
      else params in
    ok <- rd (fun d => schema.GetOk d "metadata") ;;
    let '(meta, set) := ok in
    let params :=
      if set then
        map_fold (fun k v p => stripe.AddMetadata k (ToString v) p)
                 params (ToMap meta)
      else params in
    r <- WebhookEndpoints_New c params ;;
    match r with
    | Err err => ret (diag.FromErr (Some err))
    | Ok webhookEndpoint =>
        e <- d_Set "secret" (VString (stripe.we_Secret webhookEndpoint)) ;;
        let dg := CallSet [e] in
        if (0 <? List.length dg)%nat then ret dg
        else
          u <- d_SetId (stripe.we_ID webhookEndpoint) ;;
          resourceStripeWebhookEndpointRead m
    end.

Definition resourceStripeWebhookEndpointUpdate (m : client.API)
  : M diag.Diagnostics :=
  let c := m in
  let params := stripe.emptyParams in
  changed <- rd (fun d => schema.HasChange d "enabled_events") ;;
  params <-
    (if changed : bool then
       v <- rd (fun d => StringSlice d "enabled_events") ;;
       ret (set_EnabledEvents (stripe.StringSlice v) params)
     else ret params) ;;
  changed <- rd (fun d => schema.HasChange d "url") ;;
  params <-
    (if changed : bool then
       v <- rd (fun d => String d "url") ;;
       ret (set_URL (stripe.String v) params)
     else ret params) ;;
  changed <- rd (fun d => schema.HasChange d "description") ;;
  params <-
    (if changed : bool then
       v <- rd (fun d => String d "description") ;;
       ret (set_Description (stripe.String v) params)
     else ret params) ;;
  changed <- rd (fun d => schema.HasChange d "disabled") ;;
  params <-
    (if changed : bool then
       v <- rd (fun d => Bool d "disabled") ;;
       ret (set_Disabled (stripe.Bool v) params)
     else ret params) ;;
  changed <- rd (fun d => schema.HasChange d "metadata") ;;
  params <-
    (if changed : bool then
       let params := set_Metadata None params in
       metadata <- rd (fun d => Map d "metadata") ;;
       ret (map_fold (fun k v p => stripe.AddMetadata k (assert_string v) p)
                     params metadata)
     else ret params) ;;
  id <- rd schema.Id ;;
  r <- WebhookEndpoints_Update c id params ;;
  match r with
  | Err err => ret (diag.FromErr (Some err))
  | Ok _ => resourceStripeWebhookEndpointRead m
  end.

Definition resourceStripeWebhookEndpointDelete (m : client.API)
  : M diag.Diagnostics :=
  let c := m in
  id <- rd schema.Id ;;
  r <- WebhookEndpoints_Del c id ;;
  match r with
  | Err err => ret (diag.FromErr (Some err))
  | Ok _ =>
      u <- d_SetId "" ;;
      ret []
  end.

(** * Vocabulary of the statements *)

(** The loop [for k, v := range m { params.AddMetadata(k, conv(v)) }],
    with [conv] the conversion applied to each value. *)
Definition add_all (conv : Value -> string) (p : stripe.WebhookEndpointParams)
  (mv : gmap string Value) : stripe.WebhookEndpointParams :=
  map_fold (fun k v p => stripe.AddMetadata k (conv v) p) p mv.

(** The five fields Read writes back, in the order of the calls. *)
Definition read_writes (we : stripe.WebhookEndpoint) : list (string * Value) :=
  [ ("enabled_events", VList (stripe.we_EnabledEvents we));
    ("url", VString (stripe.we_URL we));
    ("description", VString (stripe.we_Description we));
    ("disabled", VBool (negb (String.eqb (stripe.we_Status we) "enabled")));
    ("metadata", VMap (stripe.we_Metadata we)) ].

(** Performing a sequence of writes, whatever their outcome. *)
Definition write_all (l : list (string * Value)) (d : schema.ResourceData)
  : schema.ResourceData :=
  foldl (fun d kv => snd (schema.Set_ (fst kv) (snd kv) d)) d l.

(** The diagnostics of the writes the store refuses, in order. *)
Definition refusals (d : schema.ResourceData) (l : list (string * Value))
  : diag.Diagnostics :=
  flat_map (fun kv => diag.FromErr (schema.rd_reject d (fst kv) (snd kv))) l.

(** The keys Read writes. *)
Definition read_keys : list string :=
  ["enabled_events"; "url"; "description"; "disabled"; "metadata"].

(** The guard of Create: [set && ToBool(disabled)]. *)
Definition create_refused (d : schema.ResourceData) : bool :=
  let '(disabled, set) := schema.GetOk d "disabled" in set && ToBool disabled.

Definition usage_error : diag.Diagnostics :=
  [ {| diag.severity := diag.Error;
       diag.Summary := "disabled can be set when updating existing webhook only" |} ].

(** Whether a call on the remote client is an [Update]. *)
Definition is_Update (c : stripe.Call) : bool :=
  match c with
  | stripe.CallUpdate _ _ => true
  | _ => false
  end.


(** * Concrete runs *)

(** The endpoint the remote service answers with. *)
Definition we_1 : stripe.WebhookEndpoint :=
  {| stripe.we_ID := "we_1";
     stripe.we_Secret := "whsec_abc";
     stripe.we_Status := "enabled";
     stripe.we_EnabledEvents := ["charge.succeeded"];
     stripe.we_URL := "https://a.example/hook";
     stripe.we_Description := "";
     stripe.we_Metadata := ∅ |}.

(** A remote service on which every call succeeds. *)
Definition api_ok : client.API :=
  {| client.Get := fun _ _ => Ok we_1;
     client.New := fun _ _ => Ok we_1;
     client.Update := fun _ _ _ => Ok we_1;
     client.Del := fun _ _ => Ok we_1 |}.

(** A remote service that is not reachable. *)
Definition api_down : client.API :=
  {| client.Get := fun _ _ => Err "connection refused";
     client.New := fun _ _ => Err "connection refused";
     client.Update := fun _ _ _ => Err "connection refused";
     client.Del := fun _ _ => Err "connection refused" |}.

Definition accept_all : string -> Value -> error := fun _ _ => None.

(** Resource data of this resource, before any write of a handler. *)
Definition resource_data (id : string) (state plan : gmap string Value)
  (reject : string -> Value -> error) : schema.ResourceData :=
  {| schema.rd_schema := resourceStripeWebhookEndpoint_Schema;
     schema.rd_id := id;
     schema.rd_state := state;
     schema.rd_plan := plan;
     schema.rd_set := ∅;
     schema.rd_reject := reject;
     schema.rd_trace := [] |}.

Definition declared : gmap string Value :=
  {[ "url" := VString "https://a.example/hook";
     "enabled_events" := VList ["charge.succeeded"] ]}.

(** A new endpoint is declared and nothing exists yet. *)
Definition w_new : World :=
  {| data := resource_data "" ∅ declared accept_all; calls := [] |}.

(** The same, declared with a description and metadata. *)
Definition w_new_described : World :=
  {| data := resource_data "" ∅
               (<["description" := VString "orders"]>
                  (<["metadata" := VMap {[ "env" := "test" ]}]> declared))
               accept_all;
     calls := [] |}.

(** The same, declared as disabled. *)
Definition w_new_disabled : World :=
  {| data := resource_data "" ∅
               (<["disabled" := VBool true]> declared) accept_all;
     calls := [] |}.

(** The same, declared with disabled = false. *)
Definition w_new_enabled : World :=
  {| data := resource_data "" ∅
               (<["disabled" := VBool false]> declared) accept_all;
     calls := [] |}.

(** A new endpoint on a store that refuses the write of the secret. *)
Definition w_new_secret_refused : World :=
  {| data := resource_data "" ∅ declared
               (fun key _ =>
                  if String.eqb key "secret" then Some "secret: refused" else None);
     calls := [] |}.

(** An existing endpoint with nothing to change. *)
Definition w_unchanged : World :=
  {| data := resource_data "we_1" declared declared accept_all; calls := [] |}.

(** An existing endpoint on a store that refuses url and metadata. *)
Definition w_refusing : World :=
  {| data := resource_data "we_1" declared declared
               (fun key _ =>
                  if String.eqb key "url" then Some "url: refused"
                  else if String.eqb key "metadata" then Some "metadata: refused"
                  else None);
     calls := [] |}.

(** An existing endpoint of which only the url is changed. *)
Definition w_url_changed : World :=
  {| data := resource_data "we_1" declared
               (<["url" := VString "https://b.example/hook"]> declared)
               accept_all;
     calls := [] |}.

(** An existing endpoint whose metadata is taken out of the
    declaration: the last state has an entry, the plan has none. *)
Definition w_metadata_cleared : World :=
  {| data := resource_data "we_1"
               (<["metadata" := VMap {[ "env" := "test" ]}]> declared)
               declared accept_all;
     calls := [] |}.

(** The same loop, visiting the entries in the order of [l]: Go fixes
    no iteration order for a map. *)
Definition add_in_order (conv : Value -> string)
  (p : stripe.WebhookEndpointParams) (l : list (string * Value))
  : stripe.WebhookEndpointParams :=
  foldl (fun p kv => stripe.AddMetadata (fst kv) (conv (snd kv)) p) p l.

(** Whether a dynamic value is of a schema type. *)
Definition has_type (v : Value) (t : schema.ValueType) : bool :=
  match v, t with
  | VBool _, schema.TypeBool => true
  | VString _, schema.TypeString => true
  | VList _, schema.TypeList => true
  | VMap _, schema.TypeMap => true
  | _, _ => false
  end.

(** Whether a write is on an attribute the schema of this resource
    declares, with a value of the declared type. *)
Definition well_typed_write (kv : string * Value) : bool :=
  match resourceStripeWebhookEndpoint_Schema !! fst kv with
  | Some s => has_type (snd kv) (schema.Type_ s)
  | None => false
  end.

(** A new endpoint declared with an empty description and an empty
    metadata map. *)
Definition w_new_empty_optional : World :=
  {| data := resource_data "" ∅
               (<["description" := VString ""]>
                  (<["metadata" := VMap ∅]> declared))
               accept_all;
     calls := [] |}.

(** An existing, disabled endpoint with a description, that is enabled
    again and whose description and events are emptied. *)
Definition w_emptied : World :=
  {| data := resource_data "we_1"
               (<["description" := VString "orders"]>
                  (<["disabled" := VBool true]> declared))
               (<["description" := VString ""]>
                  (<["disabled" := VBool false]>
                     (<["enabled_events" := VList []]> declared)))
               accept_all;
     calls := [] |}.

(** * Properties *)

(** ** The metadata loop *)

Section metadata_loop.
Variable conv : Value -> string.

(** Ranging over a map with [AddMetadata] leaves the other fields
    alone; the metadata stays as it was for an empty map and else
    holds every entry of the map, over what was there before. *)
Lemma add_all_spec p mv :
  stripe.URL (add_all conv p mv) = stripe.URL p ∧
  stripe.EnabledEvents (add_all conv p mv) = stripe.EnabledEvents p ∧
  stripe.Description (add_all conv p mv) = stripe.Description p ∧
  stripe.Disabled (add_all conv p mv) = stripe.Disabled p ∧
  stripe.Metadata (add_all conv p mv) =
    if decide (mv = ∅) then stripe.Metadata p
    else Some ((conv <$> mv) ∪ default ∅ (stripe.Metadata p)).
Proof.
  unfold add_all. revert mv.
  apply (map_fold_weak_ind
           (fun r (m : gmap string Value) =>
              stripe.URL r = stripe.URL p ∧
              stripe.EnabledEvents r = stripe.EnabledEvents p ∧
              stripe.Description r = stripe.Description p ∧
              stripe.Disabled r = stripe.Disabled p ∧
              stripe.Metadata r =
                if decide (m = ∅) then stripe.Metadata p
                else Some ((conv <$> m) ∪ default ∅ (stripe.Metadata p)))).
  - rewrite decide_True by reflexivity. repeat split.
  - intros i x m r Hi (Hu & He & Hd & Hb & Hm). cbn.
    repeat (split; [assumption|]).
    rewrite decide_False by apply insert_non_empty.
    f_equal. rewrite Hm, fmap_insert.
    destruct (decide (m = ∅)) as [->|Hne]; cbn.
    + rewrite fmap_empty, insert_empty.
      apply insert_union_singleton_l.
    + apply insert_union_l.
Qed.
End metadata_loop.

(** The values [Map] hands to the type assertion [v.(string)] are
    strings, so the assertion cannot fail. *)
Lemma Map_values_are_strings d key k v :
  Map d key !! k = Some v → ∃ s, v = VString s.
Proof.
  unfold Map, ToMap. destruct (schema.Get d key); try (rewrite lookup_empty; discriminate).
  rewrite lookup_fmap. destruct (m !! k); cbn; [|discriminate].
  intros [= <-]. eauto.
Qed.

Lemma ToString_ToMap v : ToString <$> ToMap v = assert_string <$> ToMap v.
Proof. reflexivity. Qed.

(** ** Writes to the store *)

Lemma Set_error key value d :
  fst (schema.Set_ key value d) = schema.rd_reject d key value.
Proof. unfold schema.Set_. destruct (schema.rd_reject d key value); reflexivity. Qed.

Lemma Set_frame key value d :
  let d' := snd (schema.Set_ key value d) in
  schema.rd_schema d' = schema.rd_schema d ∧
  schema.rd_id d' = schema.rd_id d ∧
  schema.rd_state d' = schema.rd_state d ∧
  schema.rd_plan d' = schema.rd_plan d ∧
  schema.rd_reject d' = schema.rd_reject d ∧
  schema.rd_trace d' = schema.rd_trace d ++ [(key, value)] ∧
  schema.rd_set d' =
    match schema.rd_reject d key value with
    | Some _ => schema.rd_set d
    | None => <[key := value]> (schema.rd_set d)
    end.
Proof. unfold schema.Set_. destruct (schema.rd_reject d key value); cbn; repeat split. Qed.

(** ** Read *)

Lemma Read_fails m w msg :
  client.Get m (calls w) (schema.Id (data w)) = Err msg →
  resourceStripeWebhookEndpointRead m w =
    (diag.FromErr (Some msg),
     {| data := data w;
        calls := calls w ++ [stripe.CallGet (schema.Id (data w))] |}).
Proof.
  intros H. unfold resourceStripeWebhookEndpointRead, bind, rd, WebhookEndpoints_Get.
  rewrite H. reflexivity.
Qed.

Lemma d_Set_run key value w :
  d_Set key value w =
    (schema.rd_reject (data w) key value,
     {| data := snd (schema.Set_ key value (data w)); calls := calls w |}).
Proof.
  unfold d_Set, schema.Set_.
  destruct (schema.rd_reject (data w) key value); reflexivity.
Qed.

Lemma Set_reject key value d :
  schema.rd_reject (snd (schema.Set_ key value d)) = schema.rd_reject d.
Proof. apply Set_frame. Qed.

(** [CallSet] keeps one diagnostic per error among its arguments. *)
Lemma CallSet_collects err : CallSet err = flat_map diag.FromErr err.
Proof.
  induction err as [|[msg|] rest IH]; cbn [CallSet flat_map]; [reflexivity| |].
  - rewrite IH. reflexivity.
  - rewrite IH. reflexivity.
Qed.

Lemma Read_succeeds m w we :
  client.Get m (calls w) (schema.Id (data w)) = Ok we →
  resourceStripeWebhookEndpointRead m w =
    (refusals (data w) (read_writes we),
     {| data := write_all (read_writes we) (data w);
        calls := calls w ++ [stripe.CallGet (schema.Id (data w))] |}).
Proof.
  intros H. unfold resourceStripeWebhookEndpointRead, bind, rd, WebhookEndpoints_Get.
  cbv beta iota zeta. rewrite H. cbv beta iota zeta.
  repeat (rewrite d_Set_run; cbn [data calls fst snd]).
  unfold ret. rewrite CallSet_collects, !Set_reject.
  replace (if String.eqb (stripe.we_Status we) "enabled" then false else true)
    with (negb (String.eqb (stripe.we_Status we) "enabled"))
    by (destruct (String.eqb (stripe.we_Status we) "enabled"); reflexivity).
  reflexivity.
Qed.

Lemma write_all_frame l d :
  let d' := write_all l d in
  schema.rd_schema d' = schema.rd_schema d ∧
  schema.rd_id d' = schema.rd_id d ∧
  schema.rd_state d' = schema.rd_state d ∧
  schema.rd_plan d' = schema.rd_plan d ∧
  schema.rd_reject d' = schema.rd_reject d ∧
  schema.rd_trace d' = schema.rd_trace d ++ l.
Proof.
  revert d. induction l as [|[k v] l IH]; intros d; cbn.
  - rewrite app_nil_r. repeat split.
  - destruct (Set_frame k v d) as (Hs & Hi & Ht & Hp & Hr & Htr & _).
    destruct (IH (snd (schema.Set_ k v d))) as (Hs' & Hi' & Ht' & Hp' & Hr' & Htr').
    cbn in *. unfold write_all in *.
    rewrite Hs', Hi', Ht', Hp', Hr', Htr', Hs, Hi, Ht, Hp, Hr, Htr.
    rewrite <- app_assoc. repeat split.
Qed.

(** A key that is not among the writes keeps its written value. *)
Lemma write_all_other l d key :
  key ∉ l.*1 →
  schema.rd_set (write_all l d) !! key = schema.rd_set d !! key.
Proof.
  revert d. induction l as [|[k v] l IH]; intros d Hk; cbn; [reflexivity|].
  cbn in Hk. apply not_elem_of_cons in Hk as [Hne Hk].
  unfold write_all in IH. rewrite IH by assumption.
  destruct (Set_frame k v d) as (_ & _ & _ & _ & _ & _ & Hset).
  cbn in Hset. rewrite Hset.
  destruct (schema.rd_reject d k v); [reflexivity|].
  apply lookup_insert_ne. congruence.
Qed.

(** An accepted write that no later write overrides is what [Get]
    returns afterwards. *)
Lemma write_all_accepted l1 l2 d key value :
  schema.rd_reject d key value = None →
  key ∉ l2.*1 →
  schema.Get (write_all (l1 ++ (key, value) :: l2) d) key = value.
Proof.
  intros Hacc Hk. unfold schema.Get, write_all.
  rewrite foldl_app. cbn. fold (write_all l1 d).
  set (d1 := write_all l1 d).
  fold (write_all l2 (snd (schema.Set_ key value d1))).
  rewrite write_all_other by assumption.
  destruct (Set_frame key value d1) as (_ & _ & _ & _ & _ & _ & Hset).
  cbn in Hset. rewrite Hset.
  destruct (write_all_frame l1 d) as (_ & _ & _ & _ & Hr & _).
  cbn in Hr. fold d1 in Hr. rewrite Hr, Hacc.
  rewrite lookup_insert_eq. reflexivity.
Qed.

Lemma Get_frame d d' key :
  schema.rd_schema d' = schema.rd_schema d →
  schema.rd_plan d' = schema.rd_plan d →
  schema.rd_set d' !! key = schema.rd_set d !! key →
  schema.Get d' key = schema.Get d key.
Proof.
  intros Hs Hp Hk. unfold schema.Get, schema.zero_of. rewrite Hs, Hp, Hk. reflexivity.
Qed.

Lemma read_writes_keys we : (read_writes we).*1 = read_keys.
Proof. reflexivity. Qed.

(** What Read does to the world, whatever the remote answers. *)
Lemma Read_world m w :
  ∃ new,
    snd (resourceStripeWebhookEndpointRead m w) =
      {| data := write_all new (data w);
         calls := calls w ++ [stripe.CallGet (schema.Id (data w))] |} ∧
    (new = [] ∨ ∃ we, new = read_writes we).
Proof.
  destruct (client.Get m (calls w) (schema.Id (data w))) as [we|msg] eqn:H.
  - exists (read_writes we). rewrite (Read_succeeds _ _ _ H). eauto.
  - exists []. rewrite (Read_fails _ _ _ H). cbn. destruct w as [d c]. eauto.
Qed.

(** C3: when the remote [Get] succeeds, the one value Read writes for
    "disabled" is [status != "enabled"]; it is false exactly when the
    status equals "enabled", and once the store accepts the write it is
    what the store holds for "disabled". *)
Theorem Read_disabled_projection m w we :
  client.Get m (calls w) (schema.Id (data w)) = Ok we →
  let d' := data (snd (resourceStripeWebhookEndpointRead m w)) in
  let disabled := negb (String.eqb (stripe.we_Status we) "enabled") in
  (disabled = false ↔ stripe.we_Status we = "enabled") ∧
  (∃ new, schema.rd_trace d' = schema.rd_trace (data w) ++ new ∧
          ∀ v, ("disabled", v) ∈ new ↔ v = VBool disabled) ∧
  (schema.rd_reject (data w) "disabled" (VBool disabled) = None →
   schema.Get d' "disabled" = VBool disabled).
Proof.
  intros H d' disabled. subst d'. rewrite (Read_succeeds _ _ _ H). cbn [snd data].
  split; [|split].
  - subst disabled. destruct (String.eqb_spec (stripe.we_Status we) "enabled");
      cbn; split; congruence.
  - exists (read_writes we). split.
    + apply write_all_frame.
    + intros v. unfold read_writes. fold disabled.
      rewrite !elem_of_cons, elem_of_nil. split.
      * intros [Hx|[Hx|[Hx|[Hx|[Hx|[]]]]]]; congruence.
      * intros ->. auto.
  - intros Hacc.
    apply (write_all_accepted
             [ ("enabled_events", VList (stripe.we_EnabledEvents we));
               ("url", VString (stripe.we_URL we));
               ("description", VString (stripe.we_Description we)) ]
             [ ("metadata", VMap (stripe.we_Metadata we)) ]); [exact Hacc|].
    cbn. rewrite elem_of_cons, elem_of_nil. intros [Hx|[]]. discriminate.
Qed.

(** C5: when the remote [Get] succeeds, Read attempts all five writes,
    in order, whatever the outcome of each, and returns one diagnostic
    for every write the store refused, in the same order. *)
Theorem Read_collects_write_failures m w we :
  client.Get m (calls w) (schema.Id (data w)) = Ok we →
  let r := resourceStripeWebhookEndpointRead m w in
  let d := data w in
  schema.rd_trace (data (snd r)) = schema.rd_trace d ++ read_writes we ∧
  (schema.rd_trace (data (snd r))).*1 = (schema.rd_trace d).*1 ++ read_keys ∧
  fst r = refusals d (read_writes we) ∧
  (∀ key value msg,
     (key, value) ∈ read_writes we →
     schema.rd_reject d key value = Some msg →
     {| diag.severity := diag.Error; diag.Summary := msg |} ∈ fst r) ∧
  List.length (fst r) =
    List.length (filter (fun kv => is_Some (schema.rd_reject d (fst kv) (snd kv)))
                        (read_writes we)).
Proof.
  intros H r d. subst r d. rewrite (Read_succeeds _ _ _ H). cbn [fst snd data].
  assert (Htr : schema.rd_trace (write_all (read_writes we) (data w)) =
                schema.rd_trace (data w) ++ read_writes we)
    by apply write_all_frame.
  split; [exact Htr|]. split; [rewrite Htr, fmap_app; reflexivity|].
  split; [reflexivity|]. split.
  - intros key value msg Hin Hrej. unfold refusals.
    apply list_elem_of_In, in_flat_map. exists (key, value). split.
    + apply list_elem_of_In, Hin.
    + cbn. rewrite Hrej. left. reflexivity.
  - clear Htr. unfold refusals.
    induction (read_writes we) as [|[k v] l IH]; [reflexivity|].
    cbn [flat_map]. rewrite length_app, IH, filter_cons. cbn [fst snd].
    destruct (schema.rd_reject (data w) k v) as [msg|] eqn:E; cbn.
    + rewrite decide_True by eauto. reflexivity.
    + rewrite decide_False by (intros [? ?]; discriminate). reflexivity.
Qed.

(** C8: Read leaves the identity and the secret alone, whatever the
    store held and whatever the remote answers: every write it attempts
    is on one of enabled_events, url, description, disabled, metadata,
    and every other field reads as before. *)
Theorem Read_never_writes_secret m w :
  let d := data w in
  let d' := data (snd (resourceStripeWebhookEndpointRead m w)) in
  schema.Id d' = schema.Id d ∧
  schema.Get d' "secret" = schema.Get d "secret" ∧
  schema.rd_set d' !! "secret" = schema.rd_set d !! "secret" ∧
  (∀ key, key ∉ read_keys → schema.Get d' key = schema.Get d key) ∧
  (∃ new, schema.rd_trace d' = schema.rd_trace d ++ new ∧
          ∀ key value, (key, value) ∈ new → key ∈ read_keys).
Proof.
  intros d d'. subst d d'.
  destruct (Read_world m w) as (new & -> & Hnew). cbn [data].
  destruct (write_all_frame new (data w)) as (Hs & Hi & _ & Hp & _ & Htr).
  cbn in Hs, Hi, Hp, Htr.
  assert (Hkeys : ∀ key, key ∉ read_keys → key ∉ new.*1).
  { intros key Hk. destruct Hnew as [->|[we ->]]; [apply not_elem_of_nil|].
    rewrite read_writes_keys. exact Hk. }
  assert (Hget : ∀ key, key ∉ read_keys →
            schema.Get (write_all new (data w)) key = schema.Get (data w) key).
  { intros key Hk. apply Get_frame; [exact Hs|exact Hp|].
    apply write_all_other, Hkeys, Hk. }
  assert (Hsec : "secret" ∉ read_keys).
  { unfold read_keys. rewrite !elem_of_cons, elem_of_nil.
    intros [Hx|[Hx|[Hx|[Hx|[Hx|[]]]]]]; discriminate. }
  split; [exact Hi|]. split; [apply Hget, Hsec|].
  split; [apply write_all_other, Hkeys, Hsec|]. split; [exact Hget|].
  exists new. split; [exact Htr|].
  intros key value Hin. destruct Hnew as [->|[we ->]].
  - apply elem_of_nil in Hin as [].
  - rewrite <- (read_writes_keys we). apply list_elem_of_fmap.
    exists (key, value). split; [reflexivity|exact Hin].
Qed.

(** ** Delete *)

(** C7: Delete makes the one remote call [Del(id)]; when it succeeds
    the stored id becomes the empty string and nothing is reported,
    when it fails the error comes back as it is and the resource data,
    the id included, is untouched. *)
Theorem Delete_clears_id_on_success m w :
  let id := schema.Id (data w) in
  let r := resourceStripeWebhookEndpointDelete m w in
  calls (snd r) = calls w ++ [stripe.CallDel id] ∧
  match client.Del m (calls w) id with
  | Ok _ =>
      fst r = [] ∧
      data (snd r) = schema.SetId "" (data w) ∧
      schema.Id (data (snd r)) = ""
  | Err msg =>
      fst r = [ {| diag.severity := diag.Error; diag.Summary := msg |} ] ∧
      data (snd r) = data w ∧
      schema.Id (data (snd r)) = id
  end.
Proof.
  intros id r. subst id r.
  unfold resourceStripeWebhookEndpointDelete, bind, rd, ret,
    WebhookEndpoints_Del, d_SetId.
  cbn. destruct (client.Del m (calls w) (schema.Id (data w))); cbn;
    repeat split.
Qed.

(** ** Create *)

Lemma Create_refuses m w :
  create_refused (data w) = true →
  resourceStripeWebhookEndpointCreate m w = (usage_error, w).
Proof.
  unfold create_refused, resourceStripeWebhookEndpointCreate, bind, rd, ret.
  cbn. intros ->. reflexivity.
Qed.

(** Past the guard, Create builds one request, sends it with [New], and
    goes on according to the answer and to the write of the secret. *)
Lemma Create_runs m w :
  create_refused (data w) = false →
  let d := data w in
  ∃ params,
    (stripe.URL params = Some (String d "url") ∧
     stripe.EnabledEvents params = Some (StringSlice d "enabled_events") ∧
     stripe.Description params =
       (if snd (schema.GetOk d "description")
        then Some (ToString (fst (schema.GetOk d "description"))) else None) ∧
     stripe.Disabled params = None ∧
     stripe.Metadata params =
       (if snd (schema.GetOk d "metadata")
        then (if decide (ToMap (fst (schema.GetOk d "metadata")) = ∅) then None
              else Some (ToString <$> ToMap (fst (schema.GetOk d "metadata"))))
        else None)) ∧
    resourceStripeWebhookEndpointCreate m w =
      let cs := calls w ++ [stripe.CallNew params] in
      match client.New m (calls w) params with
      | Err err => (diag.FromErr (Some err), {| data := d; calls := cs |})
      | Ok we =>
          let d1 := snd (schema.Set_ "secret" (VString (stripe.we_Secret we)) d) in
          match schema.rd_reject d "secret" (VString (stripe.we_Secret we)) with
          | Some msg => (diag.FromErr (Some msg), {| data := d1; calls := cs |})
          | None =>
              resourceStripeWebhookEndpointRead m
                {| data := schema.SetId (stripe.we_ID we) d1; calls := cs |}
          end
      end.
Proof.
  intros Hg d. subst d.
  unfold create_refused in Hg.
  unfold resourceStripeWebhookEndpointCreate, bind, rd, ret.
  cbv beta iota zeta.
  destruct (schema.GetOk (data w) "disabled") as [dis set0].
  rewrite Hg.
  destruct (schema.GetOk (data w) "description") as [description set1].
  destruct (schema.GetOk (data w) "metadata") as [meta set2].
  cbn [fst snd].
  match goal with |- context [WebhookEndpoints_New m ?p] => exists p end.
  split; cycle 1.
  - unfold WebhookEndpoints_New. cbn [data calls].
    match goal with
    | |- context [client.New m (calls w) ?p] =>
        destruct (client.New m (calls w) p) as [we|err]
    end; [|reflexivity].
    rewrite d_Set_run. cbn [data calls fst snd].
    destruct (schema.rd_reject (data w) "secret" (VString (stripe.we_Secret we)));
      reflexivity.
  - destruct set2.
    + match goal with
      | |- context [map_fold _ ?p ?mv] =>
          destruct (add_all_spec ToString p mv) as (Hu & He & Hd & Hb & Hm)
      end.
      unfold add_all in Hu, He, Hd, Hb, Hm. rewrite Hu, He, Hd, Hb, Hm.
      destruct set1;
        unfold set_Description, stripe.String, stripe.StringSlice;
        cbn [stripe.URL stripe.EnabledEvents stripe.Description
             stripe.Disabled stripe.Metadata default];
        repeat split;
        destruct (decide (ToMap meta = ∅)); try reflexivity;
        rewrite (right_id_L ∅ (∪)); reflexivity.
    + destruct set1; repeat split.
Qed.

Lemma Read_calls m w :
  calls (snd (resourceStripeWebhookEndpointRead m w)) =
    calls w ++ [stripe.CallGet (schema.Id (data w))].
Proof. destruct (Read_world m w) as (new & -> & _). reflexivity. Qed.

(** The remote calls of a Create that got past its guard: the [New]
    with the request built, then at most the [Get] of the final Read. *)
Lemma Create_calls m w :
  create_refused (data w) = false →
  let d := data w in
  ∃ params rest,
    calls (snd (resourceStripeWebhookEndpointCreate m w)) =
      calls w ++ stripe.CallNew params :: rest ∧
    (rest = [] ∨ ∃ id, rest = [stripe.CallGet id]) ∧
    stripe.URL params = Some (String d "url") ∧
    stripe.EnabledEvents params = Some (StringSlice d "enabled_events") ∧
    stripe.Description params =
      (if snd (schema.GetOk d "description")
       then Some (ToString (fst (schema.GetOk d "description"))) else None) ∧
    stripe.Disabled params = None ∧
    stripe.Metadata params =
      (if snd (schema.GetOk d "metadata")
       then (if decide (ToMap (fst (schema.GetOk d "metadata")) = ∅) then None
             else Some (ToString <$> ToMap (fst (schema.GetOk d "metadata"))))
       else None).
Proof.
  intros Hg d. destruct (Create_runs m w Hg) as (params & Hp & Hrun).
  exists params. rewrite Hrun. cbn zeta.
  destruct (client.New m (calls w) params) as [we|err].
  - destruct (schema.rd_reject (data w) "secret" _).
    + exists []. split; [reflexivity|]. split; [left; reflexivity|exact Hp].
    + eexists. rewrite Read_calls. cbn [calls data].
      rewrite <- app_assoc. split; [reflexivity|]. split; [right; eauto|exact Hp].
  - exists []. split; [reflexivity|]. split; [left; reflexivity|exact Hp].
Qed.

Lemma zero_of_not_true d key : schema.zero_of d key ≠ VBool true.
Proof.
  unfold schema.zero_of. destruct (schema.rd_schema d !! key) as [s|]; [|discriminate].
  destruct (schema.Type_ s); discriminate.
Qed.

Lemma ToBool_zero_of d key : ToBool (schema.zero_of d key) = false.
Proof.
  unfold schema.zero_of. destruct (schema.rd_schema d !! key) as [s|]; [|reflexivity].
  destruct (schema.Type_ s); reflexivity.
Qed.

(** C2: with disabled set to true, Create returns the usage error and
    leaves everything as it was: no remote call is made (neither [New]
    nor [Get]), and the resource data is untouched. *)
Theorem Create_rejects_disabled m w :
  schema.Get (data w) "disabled" = VBool true →
  let r := resourceStripeWebhookEndpointCreate m w in
  fst r =
    [ {| diag.severity := diag.Error;
         diag.Summary := "disabled can be set when updating existing webhook only" |} ] ∧
  snd r = w ∧
  calls (snd r) = calls w ∧
  data (snd r) = data w.
Proof.
  intros H r. subst r. rewrite Create_refuses; [repeat split|].
  unfold create_refused, schema.GetOk. rewrite H. cbn.
  rewrite andb_true_r. apply bool_decide_eq_true.
  intros Heq. symmetry in Heq. exact (zero_of_not_true _ _ Heq).
Qed.

(** C4: past the guard, Create sends [New]; when that succeeds the
    secret is written first.  A refused write is returned at once: no
    id is assigned (it stays what it was, empty before a creation) and
    no Read follows.  Only after an accepted write is the id assigned,
    and the result is that of a full Read on the updated resource
    data. *)
Theorem Create_secret_before_id m w :
  create_refused (data w) = false →
  let d := data w in
  let r := resourceStripeWebhookEndpointCreate m w in
  ∃ params,
    let cs := calls w ++ [stripe.CallNew params] in
    (∃ rest, calls (snd r) = cs ++ rest) ∧
    ∀ we, client.New m (calls w) params = Ok we →
      let secret := VString (stripe.we_Secret we) in
      let d1 := snd (schema.Set_ "secret" secret d) in
      schema.rd_trace d1 = schema.rd_trace d ++ [("secret", secret)] ∧
      match schema.rd_reject d "secret" secret with
      | Some msg =>
          fst r = [ {| diag.severity := diag.Error; diag.Summary := msg |} ] ∧
          snd r = {| data := d1; calls := cs |} ∧
          schema.Id (data (snd r)) = schema.Id d ∧
          (schema.Id d = "" → schema.Id (data (snd r)) = "")
      | None =>
          schema.Get d1 "secret" = secret ∧
          r = resourceStripeWebhookEndpointRead m
                {| data := schema.SetId (stripe.we_ID we) d1; calls := cs |} ∧
          schema.Id (data (snd r)) = stripe.we_ID we
      end.
Proof.
  intros Hg d r. subst d r.
  destruct (Create_runs m w Hg) as (params & _ & Hrun).
  exists params. cbn zeta. split.
  - rewrite Hrun. cbn zeta.
    destruct (client.New m (calls w) params) as [we|err].
    + destruct (schema.rd_reject (data w) "secret" _).
      * exists []. cbn [snd calls]. rewrite app_nil_r. reflexivity.
      * eexists. rewrite Read_calls. reflexivity.
    + exists []. cbn [snd calls]. rewrite app_nil_r. reflexivity.
  - intros we Hnew. rewrite Hrun, Hnew. cbn zeta.
    destruct (Set_frame "secret" (VString (stripe.we_Secret we)) (data w))
      as (Hs & Hi & _ & Hp & _ & Htr & Hset).
    cbn zeta in *. split; [exact Htr|].
    destruct (schema.rd_reject (data w) "secret" (VString (stripe.we_Secret we)))
      as [msg|] eqn:Hrej.
    + cbn [fst snd data diag.FromErr]. unfold schema.Id.
      split; [reflexivity|]. split; [reflexivity|]. split; [exact Hi|].
      intros Hid. rewrite Hi. exact Hid.
    + split; [|split; [reflexivity|]].
      * unfold schema.Get. rewrite Hset, lookup_insert_eq. reflexivity.
      * destruct (Read_world m
          {| data := schema.SetId (stripe.we_ID we)
                       (snd (schema.Set_ "secret" (VString (stripe.we_Secret we)) (data w)));
             calls := calls w ++ [stripe.CallNew params] |}) as (new & -> & _).
        cbn [data]. apply write_all_frame.
Qed.

(** The schema of this resource gives the zero values that [GetOk]
    compares with: a declared string is reported as set exactly when it
    is not empty, and a declared map exactly when it is not empty. *)
Lemma GetOk_set_nonzero d :
  schema.rd_schema d = resourceStripeWebhookEndpoint_Schema →
  (∀ s, schema.Get d "description" = VString s →
        (snd (schema.GetOk d "description") = true ↔ s ≠ "")) ∧
  (∀ mm, schema.Get d "metadata" = VMap mm →
         (snd (schema.GetOk d "metadata") = true ↔ mm ≠ ∅)).
Proof.
  intros Hsch. split.
  - intros s Hv. unfold schema.GetOk. cbn [snd]. rewrite Hv.
    unfold schema.zero_of. rewrite Hsch.
    replace (resourceStripeWebhookEndpoint_Schema !! "description")
      with (Some (schema.mkSchema schema.TypeString false true false false VNil))
      by (vm_compute; reflexivity).
    cbn [schema.Type_ schema.Zero]. rewrite bool_decide_eq_true.
    split; intros H Heq; apply H; congruence.
  - intros mm Hv. unfold schema.GetOk. cbn [snd]. rewrite Hv.
    unfold schema.zero_of. rewrite Hsch.
    replace (resourceStripeWebhookEndpoint_Schema !! "metadata")
      with (Some (schema.mkSchema schema.TypeMap false true false false VNil))
      by (vm_compute; reflexivity).
    cbn [schema.Type_ schema.Zero]. rewrite bool_decide_eq_true.
    split; intros H Heq; apply H; congruence.
Qed.

(** C6, as the code has it: the request Create sends with [New] always
    carries url and enabled_events; it carries a description exactly
    when [GetOk] reports the declared description as set, and then that
    description; it carries a metadata entry exactly when [GetOk]
    reports the declared metadata as set and the entry is in it.  A
    field that is not set is left out of the request, not sent as an
    empty string.  With the schema of this resource, set means declared
    with a value that is not empty: a description declared as the empty
    string, or a metadata map declared empty, is left out like one that
    is not declared. *)
Theorem Create_request_fields m w :
  create_refused (data w) = false →
  let d := data w in
  let description := schema.GetOk d "description" in
  let meta := schema.GetOk d "metadata" in
  ∃ params rest,
    calls (snd (resourceStripeWebhookEndpointCreate m w)) =
      calls w ++ stripe.CallNew params :: rest ∧
    stripe.URL params = Some (String d "url") ∧
    stripe.EnabledEvents params = Some (StringSlice d "enabled_events") ∧
    (is_Some (stripe.Description params) ↔ snd description = true) ∧
    (snd description = true →
     stripe.Description params = Some (ToString (fst description))) ∧
    (snd description = false → stripe.Description params = None) ∧
    (∀ k v, default ∅ (stripe.Metadata params) !! k = Some v ↔
            snd meta = true ∧ ToMap (fst meta) !! k = Some (VString v)) ∧
    (snd meta = false → stripe.Metadata params = None) ∧
    (schema.rd_schema d = resourceStripeWebhookEndpoint_Schema →
     (∀ s, schema.Get d "description" = VString s →
           (snd description = true ↔ s ≠ "")) ∧
     (∀ mm, schema.Get d "metadata" = VMap mm →
            (snd meta = true ↔ mm ≠ ∅)) ∧
     (schema.Get d "description" = VString "" →
      stripe.Description params = None) ∧
     (schema.Get d "metadata" = VMap ∅ → stripe.Metadata params = None)).
Proof.
  intros Hg d description meta. subst d description meta.
  destruct (Create_calls m w Hg)
    as (params & rest & Hc & _ & Hu & He & Hd & _ & Hm).
  exists params, rest. split; [exact Hc|]. split; [exact Hu|]. split; [exact He|].
  assert (Hzero : schema.rd_schema (data w) = resourceStripeWebhookEndpoint_Schema →
            (schema.Get (data w) "description" = VString "" →
             stripe.Description params = None) ∧
            (schema.Get (data w) "metadata" = VMap ∅ →
             stripe.Metadata params = None)).
  { intros Hsch. destruct (GetOk_set_nonzero (data w) Hsch) as [H1 H2]. split.
    - intros Hv. rewrite Hd. pose proof (proj1 (H1 "" Hv)) as Hne.
      destruct (snd (schema.GetOk (data w) "description")); [|reflexivity].
      exfalso. exact (Hne eq_refl eq_refl).
    - intros Hv. rewrite Hm. pose proof (proj1 (H2 ∅ Hv)) as Hne.
      destruct (snd (schema.GetOk (data w) "metadata")); [|reflexivity].
      exfalso. exact (Hne eq_refl eq_refl). }
  assert (Hfields :
    (is_Some (stripe.Description params) ↔
     snd (schema.GetOk (data w) "description") = true) ∧
    (snd (schema.GetOk (data w) "description") = true →
     stripe.Description params =
       Some (ToString (fst (schema.GetOk (data w) "description")))) ∧
    (snd (schema.GetOk (data w) "description") = false →
     stripe.Description params = None) ∧
    (∀ k v, default ∅ (stripe.Metadata params) !! k = Some v ↔
            snd (schema.GetOk (data w) "metadata") = true ∧
            ToMap (fst (schema.GetOk (data w) "metadata")) !! k =
              Some (VString v)) ∧
    (snd (schema.GetOk (data w) "metadata") = false →
     stripe.Metadata params = None)).
  { rewrite Hd, Hm. clear Hd Hm Hzero.
    destruct (schema.GetOk (data w) "description") as [dv ds].
    destruct (schema.GetOk (data w) "metadata") as [mv ms]. cbn [fst snd].
    split; [|split; [|split; [|split]]].
    + destruct ds; split; intros H; try reflexivity; try discriminate; eauto.
      destruct H; discriminate.
    + intros ->. reflexivity.
    + intros ->. reflexivity.
    + intros k v. destruct ms.
      * assert (Hl : ∀ o : option Value,
                  ToString <$> o = Some v → ∃ x, o = Some x ∧ ToString x = v).
        { intros [x|]; cbn; [intros [= <-]; eauto|discriminate]. }
        destruct (decide (ToMap mv = ∅)) as [He0|Hne]; cbn.
        -- rewrite He0, !lookup_empty.
           split; [discriminate|intros [_ ?]; discriminate].
        -- rewrite lookup_fmap. split.
           ++ intros H. split; [reflexivity|].
              apply Hl in H as (x & Hx & Hs). rewrite Hx. f_equal.
              unfold ToMap in Hx.
              destruct mv; try (rewrite lookup_empty in Hx; discriminate).
              rewrite lookup_fmap in Hx.
              destruct (m0 !! k); cbn in Hx; [|discriminate].
              injection Hx as <-. cbn in Hs. congruence.
           ++ intros [_ ->]. reflexivity.
      * cbn. rewrite lookup_empty.
        split; [discriminate|intros [? _]; discriminate].
    + intros ->. reflexivity. }
  destruct Hfields as (A1 & A2 & A3 & A4 & A5).
  split; [exact A1|]. split; [exact A2|]. split; [exact A3|].
  split; [exact A4|]. split; [exact A5|].
  intros Hsch. destruct (GetOk_set_nonzero (data w) Hsch) as [H1 H2].
  destruct (Hzero Hsch) as [H3 H4].
  split; [exact H1|]. split; [exact H2|]. split; [exact H3|exact H4].
Qed.

(** C10: no [New] call of Create carries a disabled flag, whatever the
    input; and when disabled is unset or explicitly false the guard
    lets Create through, to a [New] call without the flag. *)
Theorem Create_never_sends_disabled m w :
  let d := data w in
  let cs := calls (snd (resourceStripeWebhookEndpointCreate m w)) in
  (∃ new, cs = calls w ++ new ∧
          ∀ params, stripe.CallNew params ∈ new → stripe.Disabled params = None) ∧
  (schema.Get d "disabled" = VBool false ∨
   (schema.rd_set d !! "disabled" = None ∧ schema.rd_plan d !! "disabled" = None) →
   create_refused d = false ∧
   ∃ params rest, cs = calls w ++ stripe.CallNew params :: rest ∧
                  stripe.Disabled params = None).
Proof.
  intros d cs. subst d cs. split.
  - destruct (create_refused (data w)) eqn:Hg.
    + rewrite (Create_refuses _ _ Hg). exists []. cbn. rewrite app_nil_r.
      split; [reflexivity|]. intros p Hp. apply elem_of_nil in Hp as [].
    + destruct (Create_calls m w Hg)
        as (params & rest & Hc & Hrest & _ & _ & _ & Hdis & _).
      exists (stripe.CallNew params :: rest). split; [exact Hc|].
      intros p Hp. apply elem_of_cons in Hp as [[= ->]|Hp]; [exact Hdis|].
      destruct Hrest as [->|[id ->]].
      * apply elem_of_nil in Hp as [].
      * apply elem_of_cons in Hp as [Hp|Hp]; [discriminate|].
        apply elem_of_nil in Hp as [].
  - intros Hin.
    assert (Hg : create_refused (data w) = false).
    { unfold create_refused, schema.GetOk.
      destruct Hin as [->|[Hs Hp]]; [apply andb_false_r|].
      unfold schema.Get. rewrite Hs, Hp, ToBool_zero_of. apply andb_false_r. }
    split; [exact Hg|].
    destruct (Create_calls m w Hg)
      as (params & rest & Hc & _ & _ & _ & _ & Hdis & _).
    eauto.
Qed.

(** ** Update *)

(** Update builds one request from the change flags, sends it, and
    reads the resource back when the remote call succeeded. *)
Lemma Update_runs m w :
  let d := data w in
  let id := schema.Id d in
  ∃ params,
    (stripe.EnabledEvents params =
       (if schema.HasChange d "enabled_events"
        then Some (StringSlice d "enabled_events") else None) ∧
     stripe.URL params =
       (if schema.HasChange d "url" then Some (String d "url") else None) ∧
     stripe.Description params =
       (if schema.HasChange d "description"
        then Some (String d "description") else None) ∧
     stripe.Disabled params =
       (if schema.HasChange d "disabled" then Some (Bool d "disabled") else None) ∧
     stripe.Metadata params =
       (if schema.HasChange d "metadata"
        then (if decide (Map d "metadata" = ∅) then None
              else Some (assert_string <$> Map d "metadata"))
        else None)) ∧
    resourceStripeWebhookEndpointUpdate m w =
      let cs := calls w ++ [stripe.CallUpdate id params] in
      match client.Update m (calls w) id params with
      | Err err => (diag.FromErr (Some err), {| data := d; calls := cs |})
      | Ok _ => resourceStripeWebhookEndpointRead m {| data := d; calls := cs |}
      end.
Proof.
  intros d id. subst d id.
  unfold resourceStripeWebhookEndpointUpdate, bind, rd, ret.
  cbv beta iota zeta.
  destruct (schema.HasChange (data w) "enabled_events");
  destruct (schema.HasChange (data w) "url");
  destruct (schema.HasChange (data w) "description");
  destruct (schema.HasChange (data w) "disabled");
  destruct (schema.HasChange (data w) "metadata");
  cbv beta iota zeta;
  match goal with
  | |- context [WebhookEndpoints_Update m _ ?p] => exists p
  end;
  (split;
   [| unfold WebhookEndpoints_Update; cbn [data calls];
      match goal with
      | |- context [client.Update m (calls w) ?i ?p] =>
          destruct (client.Update m (calls w) i p)
      end; reflexivity ]);
  unfold set_EnabledEvents, set_URL, set_Description, set_Disabled,
    set_Metadata, stripe.emptyParams, stripe.String, stripe.StringSlice,
    stripe.Bool;
  cbn [stripe.URL stripe.EnabledEvents stripe.Description
       stripe.Disabled stripe.Metadata];
  try (repeat split; fail);
  match goal with
  | |- context [map_fold _ ?p ?mv] =>
      destruct (add_all_spec assert_string p mv) as (Hu & He & Hd & Hb & Hm);
      unfold add_all in Hu, He, Hd, Hb, Hm;
      rewrite Hu, He, Hd, Hb, Hm;
      cbn [stripe.URL stripe.EnabledEvents stripe.Description
           stripe.Disabled stripe.Metadata default];
      repeat split; destruct (decide (mv = ∅)); try reflexivity;
      rewrite (right_id_L ∅ (∪)); reflexivity
  end.
Qed.

Lemma Update_calls m w :
  let d := data w in
  let id := schema.Id d in
  ∃ params,
    (stripe.EnabledEvents params =
       (if schema.HasChange d "enabled_events"
        then Some (StringSlice d "enabled_events") else None) ∧
     stripe.URL params =
       (if schema.HasChange d "url" then Some (String d "url") else None) ∧
     stripe.Description params =
       (if schema.HasChange d "description"
        then Some (String d "description") else None) ∧
     stripe.Disabled params =
       (if schema.HasChange d "disabled" then Some (Bool d "disabled") else None) ∧
     stripe.Metadata params =
       (if schema.HasChange d "metadata"
        then (if decide (Map d "metadata" = ∅) then None
              else Some (assert_string <$> Map d "metadata"))
        else None)) ∧
    calls (snd (resourceStripeWebhookEndpointUpdate m w)) =
      calls w ++ stripe.CallUpdate id params ::
        match client.Update m (calls w) id params with
        | Ok _ => [stripe.CallGet id]
        | Err _ => []
        end.
Proof.
  intros d id. subst d id.
  destruct (Update_runs m w) as (params & Hp & Hrun).
  exists params. split; [exact Hp|]. rewrite Hrun. cbv zeta.
  destruct (client.Update m (calls w) (schema.Id (data w)) params).
  - rewrite Read_calls. cbn [data calls]. rewrite <- app_assoc. reflexivity.
  - reflexivity.
Qed.

(** C1, as the code has it: Update sends one request; enabled_events,
    url, description and disabled are in it exactly when [HasChange]
    reports them changed, with their declared values; metadata is in it
    exactly when [HasChange] reports it changed and the declared map is
    not empty, with the entries of that map.  When only url changed the
    request carries url and nothing else. *)
Theorem Update_partial_patch m w :
  let d := data w in
  let id := schema.Id d in
  ∃ params rest,
    calls (snd (resourceStripeWebhookEndpointUpdate m w)) =
      calls w ++ stripe.CallUpdate id params :: rest ∧
    stripe.EnabledEvents params =
      (if schema.HasChange d "enabled_events"
       then Some (StringSlice d "enabled_events") else None) ∧
    stripe.URL params =
      (if schema.HasChange d "url" then Some (String d "url") else None) ∧
    stripe.Description params =
      (if schema.HasChange d "description"
       then Some (String d "description") else None) ∧
    stripe.Disabled params =
      (if schema.HasChange d "disabled" then Some (Bool d "disabled") else None) ∧
    stripe.Metadata params =
      (if schema.HasChange d "metadata" && bool_decide (Map d "metadata" ≠ ∅)
       then Some (assert_string <$> Map d "metadata") else None) ∧
    (schema.HasChange d "url" = true →
     schema.HasChange d "enabled_events" = false →
     schema.HasChange d "description" = false →
     schema.HasChange d "disabled" = false →
     schema.HasChange d "metadata" = false →
     params = set_URL (Some (String d "url")) stripe.emptyParams).
Proof.
  intros d id. subst d id.
  destruct (Update_calls m w) as (params & (He & Hu & Hd & Hb & Hm) & Hc).
  exists params. eexists. split; [exact Hc|].
  split; [exact He|]. split; [exact Hu|]. split; [exact Hd|]. split; [exact Hb|].
  split.
  - rewrite Hm. destruct (schema.HasChange (data w) "metadata"); [|reflexivity].
    cbn [andb]. destruct (decide (Map (data w) "metadata" = ∅)) as [E|E].
    + rewrite bool_decide_eq_false_2 by (intros Hn; exact (Hn E)). reflexivity.
    + rewrite bool_decide_eq_true_2 by exact E. reflexivity.
  - intros H1 H2 H3 H4 H5. rewrite H1 in Hu. rewrite H2 in He.
    rewrite H3 in Hd. rewrite H4 in Hb. rewrite H5 in Hm.
    destruct params. cbn [stripe.URL stripe.EnabledEvents stripe.Description
                           stripe.Disabled stripe.Metadata] in *.
    subst. reflexivity.
Qed.

(** C9: every run of Update makes exactly one remote [Update] call,
    also when nothing changed, and then with an empty request; the Read
    follows when that call succeeded, and its error is returned
    otherwise. *)
Theorem Update_always_calls_remote m w :
  let d := data w in
  let id := schema.Id d in
  let r := resourceStripeWebhookEndpointUpdate m w in
  ∃ params,
    let cs := calls w ++ [stripe.CallUpdate id params] in
    List.length (List.filter is_Update (calls (snd r))) =
      S (List.length (List.filter is_Update (calls w))) ∧
    match client.Update m (calls w) id params with
    | Ok _ =>
        r = resourceStripeWebhookEndpointRead m {| data := d; calls := cs |} ∧
        calls (snd r) = cs ++ [stripe.CallGet id]
    | Err msg =>
        r = ([ {| diag.severity := diag.Error; diag.Summary := msg |} ],
             {| data := d; calls := cs |})
    end ∧
    (schema.HasChange d "enabled_events" = false →
     schema.HasChange d "url" = false →
     schema.HasChange d "description" = false →
     schema.HasChange d "disabled" = false →
     schema.HasChange d "metadata" = false →
     params = stripe.emptyParams).
Proof.
  intros d id r. subst d id r.
  destruct (Update_runs m w) as (params & (He & Hu & Hd & Hb & Hm) & Hrun).
  exists params. cbv zeta. split; [|split].
  - rewrite Hrun. cbv zeta.
    destruct (client.Update m (calls w) (schema.Id (data w)) params).
    + rewrite Read_calls. cbn [data calls].
      rewrite !List.filter_app, !length_app. cbn. lia.
    + cbn [snd calls]. rewrite List.filter_app, length_app. cbn. lia.
  - rewrite Hrun. cbv zeta.
    destruct (client.Update m (calls w) (schema.Id (data w)) params).
    + split; [reflexivity|]. rewrite Read_calls. reflexivity.
    + reflexivity.
  - intros H1 H2 H3 H4 H5. rewrite H1 in He. rewrite H2 in Hu.
    rewrite H3 in Hd. rewrite H4 in Hb. rewrite H5 in Hm.
    destruct params. cbn [stripe.URL stripe.EnabledEvents stripe.Description
                           stripe.Disabled stripe.Metadata] in *.
    subst. reflexivity.
Qed.

(** * Witnesses and counterexample *)

(** The claim C1 as stated fails for metadata: [HasChange] reports the
    metadata as changed (its last entry was taken out), and the request
    of the one [Update] call is empty, without metadata. *)
Lemma Update_cleared_metadata_not_sent :
  schema.HasChange (data w_metadata_cleared) "metadata" = true ∧
  calls (snd (resourceStripeWebhookEndpointUpdate api_ok w_metadata_cleared)) =
    [stripe.CallUpdate "we_1" stripe.emptyParams; stripe.CallGet "we_1"] ∧
  ¬ (is_Some (stripe.Metadata stripe.emptyParams) ↔
     schema.HasChange (data w_metadata_cleared) "metadata" = true).
Proof.
  split; [vm_compute; reflexivity|]. split; [vm_compute; reflexivity|].
  intros [_ H]. destruct H as [x Hx]; [vm_compute; reflexivity|]. discriminate.
Qed.

(** The claim C6 as stated fails for an empty value: a description
    (and a metadata map) that is present in the declared input, as the
    empty string (the empty map), is not in the request of the [New]
    call, and the request is the one sent when neither is declared. *)
Lemma Create_declared_empty_description_omitted :
  schema.rd_plan (data w_new_empty_optional) !! "description" =
    Some (VString "") ∧
  schema.rd_plan (data w_new) !! "description" = None ∧
  calls (snd (resourceStripeWebhookEndpointCreate api_ok w_new_empty_optional)) =
    [ stripe.CallNew
        {| stripe.URL := Some "https://a.example/hook";
           stripe.EnabledEvents := Some ["charge.succeeded"];
           stripe.Description := None;
           stripe.Disabled := None;
           stripe.Metadata := None |};
      stripe.CallGet "we_1" ] ∧
  calls (snd (resourceStripeWebhookEndpointCreate api_ok w_new_empty_optional)) =
    calls (snd (resourceStripeWebhookEndpointCreate api_ok w_new)) ∧
  ¬ (is_Some (@None string) ↔
     is_Some (schema.rd_plan (data w_new_empty_optional) !! "description")).
Proof.
  split; [vm_compute; reflexivity|]. split; [vm_compute; reflexivity|].
  split; [vm_compute; reflexivity|]. split; [vm_compute; reflexivity|].
  intros [_ H]. destruct H as [x Hx]; [|discriminate].
  exists (VString ""). vm_compute. reflexivity.
Qed.

Lemma Update_partial_patch_witness :
  schema.HasChange (data w_url_changed) "url" = true ∧
  ∃ rest,
    calls (snd (resourceStripeWebhookEndpointUpdate api_ok w_url_changed)) =
      stripe.CallUpdate "we_1"
        (set_URL (Some "https://b.example/hook") stripe.emptyParams) :: rest.
Proof.
  split; [vm_compute; reflexivity|].
  destruct (Update_partial_patch api_ok w_url_changed)
    as (params & rest & Hc & _ & _ & _ & _ & _ & Honly).
  exists rest. rewrite Hc.
  rewrite Honly by (vm_compute; reflexivity). reflexivity.
Defined.

Lemma Create_rejects_disabled_witness :
  schema.Get (data w_new_disabled) "disabled" = VBool true ∧
  fst (resourceStripeWebhookEndpointCreate api_ok w_new_disabled) = usage_error ∧
  snd (resourceStripeWebhookEndpointCreate api_ok w_new_disabled) = w_new_disabled.
Proof.
  assert (H : schema.Get (data w_new_disabled) "disabled" = VBool true)
    by (vm_compute; reflexivity).
  split; [exact H|].
  destruct (Create_rejects_disabled api_ok w_new_disabled H) as (H1 & H2 & _).
  split; [exact H1|exact H2].
Defined.

Lemma Read_disabled_projection_witness :
  client.Get api_ok (calls w_unchanged) (schema.Id (data w_unchanged)) = Ok we_1 ∧
  schema.Get (data (snd (resourceStripeWebhookEndpointRead api_ok w_unchanged)))
    "disabled" = VBool false.
Proof.
  split; [reflexivity|].
  destruct (Read_disabled_projection api_ok w_unchanged we_1 eq_refl)
    as (_ & _ & H).
  apply H. reflexivity.
Defined.

Lemma Create_secret_before_id_witness :
  create_refused (data w_new_secret_refused) = false ∧
  fst (resourceStripeWebhookEndpointCreate api_ok w_new_secret_refused) =
    [ {| diag.severity := diag.Error; diag.Summary := "secret: refused" |} ] ∧
  schema.Id (data (snd (resourceStripeWebhookEndpointCreate api_ok
                          w_new_secret_refused))) = "".
Proof.
  assert (Hg : create_refused (data w_new_secret_refused) = false)
    by (vm_compute; reflexivity).
  split; [exact Hg|].
  destruct (Create_secret_before_id api_ok w_new_secret_refused Hg)
    as (params & _ & Hall).
  destruct (Hall we_1 eq_refl) as (_ & Hfail).
  split; [exact (proj1 Hfail)|].
  exact (proj2 (proj2 (proj2 Hfail)) eq_refl).
Defined.

Lemma Read_collects_write_failures_witness :
  client.Get api_ok (calls w_refusing) (schema.Id (data w_refusing)) = Ok we_1 ∧
  fst (resourceStripeWebhookEndpointRead api_ok w_refusing) =
    [ {| diag.severity := diag.Error; diag.Summary := "url: refused" |};
      {| diag.severity := diag.Error; diag.Summary := "metadata: refused" |} ] ∧
  (schema.rd_trace
     (data (snd (resourceStripeWebhookEndpointRead api_ok w_refusing)))).*1 =
    read_keys.
Proof.
  split; [reflexivity|].
  destruct (Read_collects_write_failures api_ok w_refusing we_1 eq_refl)
    as (_ & Hk & Hd & _).
  split; [rewrite Hd; vm_compute; reflexivity|exact Hk].
Defined.

Lemma Create_request_fields_witness :
  create_refused (data w_new_described) = false ∧
  ∃ params rest,
    calls (snd (resourceStripeWebhookEndpointCreate api_ok w_new_described)) =
      stripe.CallNew params :: rest ∧
    stripe.URL params = Some "https://a.example/hook" ∧
    stripe.EnabledEvents params = Some ["charge.succeeded"] ∧
    stripe.Description params = Some "orders" ∧
    default ∅ (stripe.Metadata params) !! "env" = Some "test".
Proof.
  assert (Hg : create_refused (data w_new_described) = false)
    by (vm_compute; reflexivity).
  split; [exact Hg|].
  destruct (Create_request_fields api_ok w_new_described Hg)
    as (params & rest & Hc & Hu & He & _ & Hd & _ & Hm & _).
  exists params, rest. split; [exact Hc|].
  split; [rewrite Hu; vm_compute; reflexivity|].
  split; [rewrite He; vm_compute; reflexivity|].
  split; [rewrite Hd by (vm_compute; reflexivity); vm_compute; reflexivity|].
  apply Hm. split; vm_compute; reflexivity.
Defined.

Lemma Update_always_calls_remote_witness :
  schema.HasChange (data w_unchanged) "url" = false ∧
  ∃ params,
    params = stripe.emptyParams ∧
    calls (snd (resourceStripeWebhookEndpointUpdate api_ok w_unchanged)) =
      [stripe.CallUpdate "we_1" params; stripe.CallGet "we_1"].
Proof.
  split; [vm_compute; reflexivity|].
  destruct (Update_always_calls_remote api_ok w_unchanged)
    as (params & _ & Hrun & Hnone).
  exists params. split.
  - apply Hnone; vm_compute; reflexivity.
  - exact (proj2 Hrun).
Defined.

Lemma Create_never_sends_disabled_witness :
  schema.Get (data w_new_enabled) "disabled" = VBool false ∧
  create_refused (data w_new_enabled) = false ∧
  ∃ params rest,
    calls (snd (resourceStripeWebhookEndpointCreate api_ok w_new_enabled)) =
      stripe.CallNew params :: rest ∧
    stripe.Disabled params = None.
Proof.
  assert (H : schema.Get (data w_new_enabled) "disabled" = VBool false)
    by (vm_compute; reflexivity).
  split; [exact H|].
  destruct (Create_never_sends_disabled api_ok w_new_enabled) as (_ & Hpass).
  exact (Hpass (or_introl H)).
Defined.

(** * Further properties of the handlers *)

(** ** Read *)

Lemma write_all_app l1 l2 d :
  write_all (l1 ++ l2) d = write_all l2 (write_all l1 d).
Proof. unfold write_all. apply foldl_app. Qed.

Lemma write_all_reject l d :
  schema.rd_reject (write_all l d) = schema.rd_reject d.
Proof. apply write_all_frame. Qed.

(** With distinct keys, what the store holds for a written key is the
    written value if the write was accepted, and what it held before
    if it was refused. *)
Lemma write_all_lookup l d key value :
  NoDup l.*1 →
  (key, value) ∈ l →
  schema.rd_set (write_all l d) !! key =
    match schema.rd_reject d key value with
    | Some _ => schema.rd_set d !! key
    | None => Some value
    end.
Proof.
  intros Hnd Hin.
  apply list_elem_of_split in Hin as (l1 & l2 & ->).
  rewrite fmap_app, fmap_cons in Hnd. cbn [fst] in Hnd.
  apply NoDup_app in Hnd as (_ & H1 & Hnd2).
  apply NoDup_cons in Hnd2 as [H2 _].
  assert (Hk1 : key ∉ l1.*1).
  { intros Hk. apply (H1 key Hk). left. }
  rewrite write_all_app. change ((key, value) :: l2) with ([(key, value)] ++ l2).
  rewrite write_all_app, write_all_other by exact H2.
  unfold write_all at 1. cbn [foldl fst snd].
  destruct (Set_frame key value (write_all l1 d)) as (_ & _ & _ & _ & _ & _ & Hset).
  cbv zeta in Hset. rewrite Hset, write_all_reject.
  destruct (schema.rd_reject d key value).
  - apply write_all_other, Hk1.
  - apply lookup_insert_eq.
Qed.

Lemma read_writes_NoDup we : NoDup (read_writes we).*1.
Proof.
  rewrite read_writes_keys. unfold read_keys.
  repeat (apply NoDup_cons; split;
          [rewrite ?elem_of_cons, elem_of_nil; intros H;
           repeat (destruct H as [H|H]; [discriminate|]); exact H|]).
  apply NoDup_nil. exact I.
Qed.

(** X1: when the remote [Get] fails, Read returns that error as its
    one diagnostic and touches nothing in the resource data: no field
    is written and the id is kept, so the resource stays in the state
    (also when the remote object is gone). *)
Theorem Read_remote_failure m w msg :
  client.Get m (calls w) (schema.Id (data w)) = Err msg →
  let r := resourceStripeWebhookEndpointRead m w in
  fst r = [ {| diag.severity := diag.Error; diag.Summary := msg |} ] ∧
  data (snd r) = data w ∧
  calls (snd r) = calls w ++ [stripe.CallGet (schema.Id (data w))].
Proof.
  intros H r. subst r. rewrite (Read_fails _ _ _ H). repeat split.
Qed.

Lemma Read_remote_failure_witness :
  client.Get api_down (calls w_unchanged) (schema.Id (data w_unchanged)) =
    Err "connection refused" ∧
  data (snd (resourceStripeWebhookEndpointRead api_down w_unchanged)) =
    data w_unchanged.
Proof.
  split; [reflexivity|].
  exact (proj1 (proj2 (Read_remote_failure api_down w_unchanged _ eq_refl))).
Defined.

(** X2: when the remote [Get] succeeds and the store accepts the five
    writes, Read reports nothing and the store then holds the remote
    url, events, description and metadata, and the projected disabled
    flag. *)
Theorem Read_refreshes_fields m w we :
  client.Get m (calls w) (schema.Id (data w)) = Ok we →
  (∀ key value, (key, value) ∈ read_writes we →
                schema.rd_reject (data w) key value = None) →
  let r := resourceStripeWebhookEndpointRead m w in
  let d' := data (snd r) in
  fst r = [] ∧
  schema.Get d' "enabled_events" = VList (stripe.we_EnabledEvents we) ∧
  schema.Get d' "url" = VString (stripe.we_URL we) ∧
  schema.Get d' "description" = VString (stripe.we_Description we) ∧
  schema.Get d' "disabled" =
    VBool (negb (String.eqb (stripe.we_Status we) "enabled")) ∧
  schema.Get d' "metadata" = VMap (stripe.we_Metadata we).
Proof.
  intros H Hacc r d'. subst r d'. rewrite (Read_succeeds _ _ _ H).
  cbn [fst snd data].
  assert (Hget : ∀ key value, (key, value) ∈ read_writes we →
            schema.Get (write_all (read_writes we) (data w)) key = value).
  { intros key value Hin. unfold schema.Get.
    rewrite (write_all_lookup _ _ key value (read_writes_NoDup we) Hin).
    rewrite (Hacc _ _ Hin). reflexivity. }
  split.
  - unfold refusals.
    assert (Hall : ∀ l : list (string * Value),
              (∀ kv, kv ∈ l → schema.rd_reject (data w) (fst kv) (snd kv) = None) →
              flat_map (fun kv => diag.FromErr
                          (schema.rd_reject (data w) (fst kv) (snd kv))) l = []).
    { induction l as [|kv l IH]; intros Hl; [reflexivity|].
      cbn [flat_map]. rewrite (Hl kv) by left. rewrite IH; [reflexivity|].
      intros kv' Hin. apply Hl. right. exact Hin. }
    apply Hall. intros [k v] Hin. apply Hacc, Hin.
  - unfold read_writes in Hget.
    repeat split; apply Hget; rewrite !elem_of_cons; auto 10.
Qed.

Lemma Read_refreshes_fields_witness :
  client.Get api_ok (calls w_url_changed) (schema.Id (data w_url_changed)) =
    Ok we_1 ∧
  schema.Get
    (data (snd (resourceStripeWebhookEndpointRead api_ok w_url_changed))) "url" =
    VString "https://a.example/hook".
Proof.
  split; [reflexivity|].
  assert (Hacc : ∀ key value, (key, value) ∈ read_writes we_1 →
            schema.rd_reject (data w_url_changed) key value = None)
    by (intros; reflexivity).
  exact (proj1 (proj2 (proj2
           (Read_refreshes_fields api_ok w_url_changed we_1 eq_refl Hacc)))).
Defined.

(** X3: Read reports no diagnostic exactly when the remote [Get]
    succeeded and the store accepted every one of the five writes. *)
Theorem Read_reports_nothing_iff m w :
  fst (resourceStripeWebhookEndpointRead m w) = [] ↔
  ∃ we, client.Get m (calls w) (schema.Id (data w)) = Ok we ∧
        ∀ key value, (key, value) ∈ read_writes we →
                     schema.rd_reject (data w) key value = None.
Proof.
  destruct (client.Get m (calls w) (schema.Id (data w))) as [we|msg] eqn:H.
  - rewrite (Read_succeeds _ _ _ H). cbn [fst]. unfold refusals. split.
    + intros Hnil. exists we. split; [reflexivity|].
      intros key value Hin.
      destruct (schema.rd_reject (data w) key value) as [e|] eqn:Hrej;
        [|reflexivity].
      assert (Hd : {| diag.severity := diag.Error; diag.Summary := e |} ∈
                   flat_map (fun kv => diag.FromErr
                               (schema.rd_reject (data w) (fst kv) (snd kv)))
                            (read_writes we)).
      { apply list_elem_of_In, in_flat_map. exists (key, value).
        split; [apply list_elem_of_In, Hin|]. cbn [fst snd]. rewrite Hrej. left.
        reflexivity. }
      rewrite Hnil in Hd. apply elem_of_nil in Hd as [].
    + intros (we' & [= <-] & Hacc).
      destruct (flat_map _ (read_writes we)) as [|x l] eqn:E; [reflexivity|].
      assert (Hx : In x (flat_map (fun kv => diag.FromErr
                        (schema.rd_reject (data w) (fst kv) (snd kv)))
                        (read_writes we))) by (rewrite E; left; reflexivity).
      apply in_flat_map in Hx as ([k v] & Hin & Hx).
      apply list_elem_of_In in Hin. cbn [fst snd] in Hx.
      rewrite (Hacc _ _ Hin) in Hx. destruct Hx.
  - rewrite (Read_fails _ _ _ H). cbn [fst diag.FromErr]. split.
    + discriminate.
    + intros (we & Hwe & _). discriminate.
Qed.

(** X4: reading twice is the same as reading once: when the remote
    gives the same answer again, the second Read returns the same
    diagnostics and leaves every field as the first Read left it. *)
Theorem Read_twice m w we :
  client.Get m (calls w) (schema.Id (data w)) = Ok we →
  let r1 := resourceStripeWebhookEndpointRead m w in
  client.Get m (calls (snd r1)) (schema.Id (data (snd r1))) = Ok we →
  let r2 := resourceStripeWebhookEndpointRead m (snd r1) in
  fst r2 = fst r1 ∧
  schema.rd_set (data (snd r2)) = schema.rd_set (data (snd r1)) ∧
  ∀ key, schema.Get (data (snd r2)) key = schema.Get (data (snd r1)) key.
Proof.
  intros H1 r1 H2 r2. subst r2. rewrite (Read_succeeds _ _ _ H2).
  subst r1. rewrite (Read_succeeds _ _ _ H1). cbn [fst snd data].
  set (l := read_writes we). set (d1 := write_all l (data w)).
  assert (Hset : schema.rd_set (write_all l d1) = schema.rd_set d1).
  { apply map_eq. intros key.
    destruct (decide (key ∈ l.*1)) as [Hin|Hout].
    - apply list_elem_of_fmap in Hin as ([k v] & -> & Hin). cbn [fst].
      rewrite (write_all_lookup l d1 k v (read_writes_NoDup we) Hin).
      subst d1. rewrite write_all_reject.
      rewrite (write_all_lookup l (data w) k v (read_writes_NoDup we) Hin).
      destruct (schema.rd_reject (data w) k v); reflexivity.
    - apply write_all_other, Hout. }
  split; [|split].
  - unfold refusals. subst d1. rewrite write_all_reject. reflexivity.
  - exact Hset.
  - intros key. apply Get_frame.
    + destruct (write_all_frame l d1) as (Hs & _). exact Hs.
    + destruct (write_all_frame l d1) as (_ & _ & _ & Hp & _). exact Hp.
    + rewrite Hset. reflexivity.
Qed.

Lemma Read_twice_witness :
  client.Get api_ok (calls w_refusing) (schema.Id (data w_refusing)) = Ok we_1 ∧
  fst (resourceStripeWebhookEndpointRead api_ok
         (snd (resourceStripeWebhookEndpointRead api_ok w_refusing))) =
  fst (resourceStripeWebhookEndpointRead api_ok w_refusing).
Proof.
  split; [reflexivity|].
  exact (proj1 (Read_twice api_ok w_refusing we_1 eq_refl eq_refl)).
Defined.

(** ** Create *)

(** X5: a Create that gets past its guard, whose [New] succeeds and
    whose secret the store accepts, reads the new endpoint back under
    the id that [New] returned; afterwards that id is stored and the
    secret is still the one captured from [New]. *)
Theorem Create_reads_back_what_it_created m w :
  create_refused (data w) = false →
  let d := data w in
  let r := resourceStripeWebhookEndpointCreate m w in
  ∃ params,
    (∃ rest, calls (snd r) = calls w ++ stripe.CallNew params :: rest) ∧
    ∀ we,
      client.New m (calls w) params = Ok we →
      schema.rd_reject d "secret" (VString (stripe.we_Secret we)) = None →
      calls (snd r) =
        calls w ++ [stripe.CallNew params; stripe.CallGet (stripe.we_ID we)] ∧
      schema.Id (data (snd r)) = stripe.we_ID we ∧
      schema.Get (data (snd r)) "secret" = VString (stripe.we_Secret we).
Proof.
  intros Hg d r. subst d r.
  destruct (Create_calls m w Hg) as (params0 & rest & Hc & _).
  destruct (Create_runs m w Hg) as (params & _ & Hrun).
  assert (params0 = params) as ->.
  { rewrite Hrun in Hc. cbv zeta in Hc.
    destruct (client.New m (calls w) params) as [we|err];
      [destruct (schema.rd_reject (data w) "secret" _)|];
      cbn [snd calls] in Hc; try rewrite Read_calls in Hc; cbn [calls] in Hc;
      try rewrite <- app_assoc in Hc;
      apply app_inv_head in Hc; injection Hc as Hc; congruence. }
  exists params. split; [eauto|].
  intros we Hnew Hacc. rewrite Hrun, Hnew. cbv zeta. rewrite Hacc.
  set (d1 := schema.SetId (stripe.we_ID we)
               (snd (schema.Set_ "secret" (VString (stripe.we_Secret we)) (data w)))).
  destruct (Read_world m {| data := d1; calls := calls w ++ [stripe.CallNew params] |})
    as (new & -> & Hnew').
  cbn [data calls].
  destruct (write_all_frame new d1) as (Hs & Hi & _ & Hp & _).
  cbv zeta in Hs, Hi, Hp.
  split; [rewrite <- app_assoc; reflexivity|]. split; [exact Hi|].
  assert (Hsec : "secret" ∉ new.*1).
  { destruct Hnew' as [->|[we' ->]]; [apply not_elem_of_nil|].
    rewrite read_writes_keys. unfold read_keys.
    rewrite !elem_of_cons, elem_of_nil.
    intros H. repeat (destruct H as [H|H]; [discriminate|]). exact H. }
  unfold schema.Get. rewrite (write_all_other new d1 "secret" Hsec).
  subst d1. cbn [schema.SetId schema.rd_set].
  destruct (Set_frame "secret" (VString (stripe.we_Secret we)) (data w))
    as (_ & _ & _ & _ & _ & _ & Hset).
  cbv zeta in Hset. rewrite Hset, Hacc, lookup_insert_eq. reflexivity.
Qed.

Lemma Create_reads_back_what_it_created_witness :
  create_refused (data w_new) = false ∧
  schema.Id (data (snd (resourceStripeWebhookEndpointCreate api_ok w_new))) =
    "we_1" ∧
  schema.Get (data (snd (resourceStripeWebhookEndpointCreate api_ok w_new)))
    "secret" = VString "whsec_abc".
Proof.
  assert (Hg : create_refused (data w_new) = false) by (vm_compute; reflexivity).
  split; [exact Hg|].
  destruct (Create_reads_back_what_it_created api_ok w_new Hg)
    as (params & _ & Hall).
  exact (proj2 (Hall we_1 eq_refl eq_refl)).
Defined.

(** X6: when the remote [New] fails, Create returns that error as its
    one diagnostic, writes nothing to the resource data (no secret, no
    id) and makes no further call. *)
Theorem Create_remote_failure m w :
  create_refused (data w) = false →
  let r := resourceStripeWebhookEndpointCreate m w in
  ∃ params,
    (∃ rest, calls (snd r) = calls w ++ stripe.CallNew params :: rest) ∧
    ∀ msg,
      client.New m (calls w) params = Err msg →
      fst r = [ {| diag.severity := diag.Error; diag.Summary := msg |} ] ∧
      data (snd r) = data w ∧
      calls (snd r) = calls w ++ [stripe.CallNew params].
Proof.
  intros Hg r. subst r.
  destruct (Create_runs m w Hg) as (params & _ & Hrun).
  exists params. rewrite Hrun. cbv zeta. split.
  - destruct (client.New m (calls w) params) as [we|err];
      [destruct (schema.rd_reject (data w) "secret" _)|].
    + exists []. reflexivity.
    + eexists. rewrite Read_calls. cbn [data calls].
      rewrite <- app_assoc. reflexivity.
    + exists []. reflexivity.
  - intros msg ->. repeat split.
Qed.

Lemma Create_remote_failure_witness :
  create_refused (data w_new) = false ∧
  data (snd (resourceStripeWebhookEndpointCreate api_down w_new)) = data w_new ∧
  fst (resourceStripeWebhookEndpointCreate api_down w_new) =
    [ {| diag.severity := diag.Error; diag.Summary := "connection refused" |} ].
Proof.
  assert (Hg : create_refused (data w_new) = false) by (vm_compute; reflexivity).
  split; [exact Hg|].
  destruct (Create_remote_failure api_down w_new Hg) as (params & _ & Hall).
  destruct (Hall "connection refused" eq_refl) as (H1 & H2 & _).
  split; [exact H2|exact H1].
Defined.

(** X7: on resource data with the schema of this resource, a
    description declared as the empty string and a metadata map
    declared as empty are not reported as set by [GetOk], so Create
    leaves them out of the request. *)
Theorem Create_omits_empty_optional_fields m w :
  schema.rd_schema (data w) = resourceStripeWebhookEndpoint_Schema →
  create_refused (data w) = false →
  let d := data w in
  ∃ params rest,
    calls (snd (resourceStripeWebhookEndpointCreate m w)) =
      calls w ++ stripe.CallNew params :: rest ∧
    (schema.Get d "description" = VString "" → stripe.Description params = None) ∧
    (schema.Get d "metadata" = VMap ∅ → stripe.Metadata params = None).
Proof.
  intros Hsch Hg d. subst d.
  destruct (Create_calls m w Hg)
    as (params & rest & Hc & _ & _ & _ & Hd & _ & Hm).
  exists params, rest. split; [exact Hc|]. split.
  - intros Hv. rewrite Hd. unfold schema.GetOk. cbn [fst snd].
    rewrite Hv. unfold schema.zero_of. rewrite Hsch.
    replace (resourceStripeWebhookEndpoint_Schema !! "description")
      with (Some (schema.mkSchema schema.TypeString false true false false VNil))
      by (vm_compute; reflexivity).
    cbn [schema.Type_ schema.Zero].
    rewrite bool_decide_eq_false_2 by (intros H; apply H; reflexivity).
    reflexivity.
  - intros Hv. rewrite Hm. unfold schema.GetOk. cbn [fst snd].
    rewrite Hv. unfold schema.zero_of. rewrite Hsch.
    replace (resourceStripeWebhookEndpoint_Schema !! "metadata")
      with (Some (schema.mkSchema schema.TypeMap false true false false VNil))
      by (vm_compute; reflexivity).
    cbn [schema.Type_ schema.Zero].
    rewrite bool_decide_eq_false_2 by (intros H; apply H; reflexivity).
    reflexivity.
Qed.

Lemma Create_omits_empty_optional_fields_witness :
  schema.rd_schema (data w_new_empty_optional) =
    resourceStripeWebhookEndpoint_Schema ∧
  create_refused (data w_new_empty_optional) = false ∧
  ∃ params rest,
    calls (snd (resourceStripeWebhookEndpointCreate api_ok w_new_empty_optional)) =
      stripe.CallNew params :: rest ∧
    stripe.Description params = None ∧
    stripe.Metadata params = None.
Proof.
  assert (Hg : create_refused (data w_new_empty_optional) = false)
    by (vm_compute; reflexivity).
  split; [reflexivity|]. split; [exact Hg|].
  destruct (Create_omits_empty_optional_fields api_ok w_new_empty_optional
              eq_refl Hg) as (params & rest & Hc & Hd & Hm).
  exists params, rest. split; [exact Hc|]. split.
  - apply Hd. vm_compute. reflexivity.
  - apply Hm. vm_compute. reflexivity.
Defined.

(** ** Update *)

(** A request is determined by its five fields. *)
Lemma params_eq (p q : stripe.WebhookEndpointParams) :
  stripe.EnabledEvents p = stripe.EnabledEvents q →
  stripe.URL p = stripe.URL q →
  stripe.Description p = stripe.Description q →
  stripe.Disabled p = stripe.Disabled q →
  stripe.Metadata p = stripe.Metadata q →
  p = q.
Proof.
  destruct p, q. cbn [stripe.URL stripe.EnabledEvents stripe.Description
                      stripe.Disabled stripe.Metadata].
  intros. subst. reflexivity.
Qed.

(** X8: when the remote [Update] fails, Update returns that error as
    its one diagnostic, makes no [Get], and leaves the resource data as
    it was; run again, it sends the same request. *)
Theorem Update_remote_failure m w :
  let d := data w in
  let id := schema.Id d in
  let r := resourceStripeWebhookEndpointUpdate m w in
  ∃ params,
    (∃ rest, calls (snd r) = calls w ++ stripe.CallUpdate id params :: rest) ∧
    ∀ msg,
      client.Update m (calls w) id params = Err msg →
      fst r = [ {| diag.severity := diag.Error; diag.Summary := msg |} ] ∧
      data (snd r) = d ∧
      calls (snd r) = calls w ++ [stripe.CallUpdate id params] ∧
      ∃ rest',
        calls (snd (resourceStripeWebhookEndpointUpdate m (snd r))) =
          calls (snd r) ++ stripe.CallUpdate id params :: rest'.
Proof.
  intros d id r. subst d id r.
  destruct (Update_calls m w) as (params & (He & Hu & Hd & Hb & Hm) & Hc).
  destruct (Update_runs m w) as (params' & (He' & Hu' & Hd' & Hb' & Hm') & Hrun).
  assert (params' = params) as ->
    by (apply params_eq; (etransitivity; [eassumption|symmetry; eassumption])).
  exists params. split; [eauto|].
  intros msg Hmsg. rewrite Hrun, Hmsg. cbv zeta. cbn [fst snd data calls].
  repeat split.
  set (w' := {| data := data w;
                calls := calls w ++
                  [stripe.CallUpdate (schema.Id (data w)) params] |}).
  destruct (Update_calls m w')
    as (params2 & (He2 & Hu2 & Hd2 & Hb2 & Hm2) & Hc2).
  cbn [data calls] in He2, Hu2, Hd2, Hb2, Hm2.
  assert (params2 = params) as ->
    by (apply params_eq; (etransitivity; [eassumption|symmetry; eassumption])).
  eexists. exact Hc2.
Qed.

Lemma Update_remote_failure_witness :
  client.Update api_down (calls w_url_changed) (schema.Id (data w_url_changed))
    (set_URL (Some "https://b.example/hook") stripe.emptyParams) =
    Err "connection refused" ∧
  data (snd (resourceStripeWebhookEndpointUpdate api_down w_url_changed)) =
    data w_url_changed.
Proof.
  split; [reflexivity|].
  destruct (Update_remote_failure api_down w_url_changed)
    as (params & _ & Hall).
  exact (proj1 (proj2 (Hall "connection refused" eq_refl))).
Defined.

(** X9: whatever happens, Update leaves the id, the secret and the
    change flags as they were; the only fields it may write are the
    five that Read writes back. *)
Theorem Update_frame m w :
  let d := data w in
  let d' := data (snd (resourceStripeWebhookEndpointUpdate m w)) in
  schema.Id d' = schema.Id d ∧
  schema.Get d' "secret" = schema.Get d "secret" ∧
  (∀ key, key ∉ read_keys → schema.Get d' key = schema.Get d key) ∧
  (∀ key, schema.HasChange d' key = schema.HasChange d key) ∧
  (∃ new, schema.rd_trace d' = schema.rd_trace d ++ new ∧
          ∀ key value, (key, value) ∈ new → key ∈ read_keys).
Proof.
  intros d d'. subst d d'.
  assert (Hw : ∃ new, data (snd (resourceStripeWebhookEndpointUpdate m w)) =
                        write_all new (data w) ∧
                      (new = [] ∨ ∃ we, new = read_writes we)).
  { destruct (Update_runs m w) as (params & _ & Hrun). rewrite Hrun. cbv zeta.
    destruct (client.Update m (calls w) (schema.Id (data w)) params).
    - match goal with
      | |- context [resourceStripeWebhookEndpointRead m ?w0] =>
          destruct (Read_world m w0) as (new & -> & Hnew)
      end.
      exists new. split; [reflexivity|exact Hnew].
    - exists []. split; [reflexivity|left; reflexivity]. }
  destruct Hw as (new & -> & Hnew).
  destruct (write_all_frame new (data w)) as (Hs & Hi & Hst & Hp & _ & Htr).
  cbv zeta in Hs, Hi, Hst, Hp, Htr.
  assert (Hkeys : ∀ key, key ∉ read_keys → key ∉ new.*1).
  { intros key Hk. destruct Hnew as [->|[we ->]]; [apply not_elem_of_nil|].
    rewrite read_writes_keys. exact Hk. }
  assert (Hget : ∀ key, key ∉ read_keys →
            schema.Get (write_all new (data w)) key = schema.Get (data w) key).
  { intros key Hk. apply Get_frame; [exact Hs|exact Hp|].
    apply write_all_other, Hkeys, Hk. }
  assert (Hsec : "secret" ∉ read_keys).
  { unfold read_keys. rewrite !elem_of_cons, elem_of_nil.
    intros H. repeat (destruct H as [H|H]; [discriminate|]). exact H. }
  split; [exact Hi|]. split; [apply Hget, Hsec|]. split; [exact Hget|]. split.
  - intros key. unfold schema.HasChange, schema.GetChange, schema.zero_of.
    rewrite Hs, Hst, Hp. reflexivity.
  - exists new. split; [exact Htr|].
    intros key value Hin. destruct Hnew as [->|[we ->]].
    + apply elem_of_nil in Hin as [].
    + rewrite <- (read_writes_keys we). apply list_elem_of_fmap.
      exists (key, value). split; [reflexivity|exact Hin].
Qed.

(** X10: a changed field is sent also when its new value is the zero
    value: a description changed to the empty string is sent as the
    empty string, an event list changed to the empty list as an empty
    list, and disabled changed to false as false. *)
Theorem Update_sends_zero_values m w :
  let d := data w in
  ∃ params rest,
    calls (snd (resourceStripeWebhookEndpointUpdate m w)) =
      calls w ++ stripe.CallUpdate (schema.Id d) params :: rest ∧
    (schema.HasChange d "description" = true →
     schema.Get d "description" = VString "" →
     stripe.Description params = Some "") ∧
    (schema.HasChange d "enabled_events" = true →
     schema.Get d "enabled_events" = VList [] →
     stripe.EnabledEvents params = Some []) ∧
    (schema.HasChange d "disabled" = true →
     schema.Get d "disabled" = VBool false →
     stripe.Disabled params = Some false).
Proof.
  intros d. subst d.
  destruct (Update_calls m w) as (params & (He & Hu & Hd & Hb & Hm) & Hc).
  exists params. eexists. split; [exact Hc|].
  split; [|split]; intros Hch Hv.
  - rewrite Hd, Hch. unfold String. rewrite Hv. reflexivity.
  - rewrite He, Hch. unfold StringSlice. rewrite Hv. reflexivity.
  - rewrite Hb, Hch. unfold Bool. rewrite Hv. reflexivity.
Qed.

Lemma Update_sends_zero_values_witness :
  schema.HasChange (data w_emptied) "description" = true ∧
  schema.Get (data w_emptied) "description" = VString "" ∧
  ∃ params rest,
    calls (snd (resourceStripeWebhookEndpointUpdate api_ok w_emptied)) =
      stripe.CallUpdate "we_1" params :: rest ∧
    stripe.Description params = Some "" ∧
    stripe.EnabledEvents params = Some [] ∧
    stripe.Disabled params = Some false.
Proof.
  split; [vm_compute; reflexivity|]. split; [vm_compute; reflexivity|].
  destruct (Update_sends_zero_values api_ok w_emptied)
    as (params & rest & Hc & H1 & H2 & H3).
  exists params, rest. split; [exact Hc|].
  split; [apply H1; vm_compute; reflexivity|].
  split; [apply H2; vm_compute; reflexivity|apply H3; vm_compute; reflexivity].
Defined.

(** ** The metadata loop, in any order *)

Lemma add_in_order_spec conv l p :
  NoDup l.*1 →
  stripe.URL (add_in_order conv p l) = stripe.URL p ∧
  stripe.EnabledEvents (add_in_order conv p l) = stripe.EnabledEvents p ∧
  stripe.Description (add_in_order conv p l) = stripe.Description p ∧
  stripe.Disabled (add_in_order conv p l) = stripe.Disabled p ∧
  stripe.Metadata (add_in_order conv p l) =
    match l with
    | [] => stripe.Metadata p
    | _ => Some (list_to_map (prod_map id conv <$> l)
                   ∪ default ∅ (stripe.Metadata p))
    end.
Proof.
  revert p. induction l as [|[k v] l IH]; intros p Hnd.
  - repeat split.
  - rewrite fmap_cons in Hnd. cbn [fst] in Hnd.
    apply NoDup_cons in Hnd as [Hk Hnd].
    unfold add_in_order. cbn [foldl fst snd].
    fold (add_in_order conv (stripe.AddMetadata k (conv v) p) l).
    destruct (IH (stripe.AddMetadata k (conv v) p) Hnd)
      as (Hu & He & Hd & Hb & Hm).
    rewrite Hu, He, Hd, Hb, Hm. clear Hu He Hd Hb Hm IH.
    cbn [stripe.AddMetadata stripe.URL stripe.EnabledEvents stripe.Description
         stripe.Disabled stripe.Metadata default].
    split; [reflexivity|]. split; [reflexivity|]. split; [reflexivity|].
    split; [reflexivity|].
    rewrite fmap_cons. cbn [prod_map fst snd id].
    rewrite list_to_map_cons.
    destruct l as [|kv l']; f_equal.
    + cbn [fmap list_fmap]. rewrite list_to_map_nil, insert_empty.
      apply insert_union_singleton_l.
    + rewrite <- insert_union_r.
      * apply insert_union_l.
      * apply not_elem_of_list_to_map_1.
        rewrite <- list_fmap_compose.
        replace (fst ∘ prod_map id conv) with (@fst string Value)
          by reflexivity.
        exact Hk.
Qed.

(** X11: the request does not depend on the order in which the loop
    visits the metadata: adding the entries of a map in any order gives
    the request that the loop of the handlers gives. *)
Theorem metadata_loop_order_irrelevant conv p mv l :
  l ≡ₚ map_to_list mv →
  add_in_order conv p l = add_all conv p mv.
Proof.
  intros Hperm.
  assert (Hnd : NoDup l.*1).
  { rewrite Hperm. apply NoDup_fst_map_to_list. }
  destruct (add_in_order_spec conv l p Hnd) as (Hu & He & Hd & Hb & Hm).
  destruct (add_all_spec conv p mv) as (Hu' & He' & Hd' & Hb' & Hm').
  apply params_eq; try congruence.
  rewrite Hm, Hm'.
  destruct (decide (mv = ∅)) as [->|Hne].
  - rewrite map_to_list_empty in Hperm.
    apply Permutation_nil_r in Hperm as ->. reflexivity.
  - destruct l as [|kv l'].
    + symmetry in Hperm. apply Permutation_nil_r in Hperm.
      apply map_to_list_empty_iff in Hperm. contradiction.
    + f_equal. f_equal. rewrite list_to_map_fmap. f_equal.
      rewrite (list_to_map_proper _ _ Hnd Hperm).
      apply list_to_map_to_list.
Qed.

Lemma metadata_loop_order_irrelevant_witness :
  [("b", VString "2"); ("a", VString "1")] ≡ₚ
    map_to_list ({[ "a" := VString "1"; "b" := VString "2" ]} : gmap string Value) ∧
  stripe.Metadata
    (add_in_order ToString stripe.emptyParams
       [("b", VString "2"); ("a", VString "1")]) =
  stripe.Metadata
    (add_all ToString stripe.emptyParams
       {[ "a" := VString "1"; "b" := VString "2" ]}).
Proof.
  assert (H : [("b", VString "2"); ("a", VString "1")] ≡ₚ
    map_to_list ({[ "a" := VString "1"; "b" := VString "2" ]} : gmap string Value)).
  { apply NoDup_Permutation.
    - repeat (apply NoDup_cons; split;
              [rewrite ?elem_of_cons, elem_of_nil; intros H;
               repeat (destruct H as [H|H]; [discriminate|]); exact H|]).
      apply NoDup_nil. exact I.
    - apply NoDup_map_to_list.
    - intros [k v]. rewrite elem_of_map_to_list.
      rewrite lookup_insert_Some, lookup_singleton_Some.
      rewrite !elem_of_cons, elem_of_nil. split.
      + intros [[= -> ->]|[[= -> ->]|[]]]; [right|left]; split; try reflexivity;
          try discriminate. split; reflexivity.
      + intros [[<- <-]|[_ [<- <-]]]; auto. }
  split; [exact H|].
  rewrite (metadata_loop_order_irrelevant ToString stripe.emptyParams _ _ H).
  reflexivity.
Defined.

(** ** All four handlers *)

Lemma refusals_errors d l :
  Forall (fun dg => diag.severity dg = diag.Error) (refusals d l) ∧
  (List.length (refusals d l) ≤ List.length l)%nat.
Proof.
  unfold refusals. induction l as [|[k v] l [IH1 IH2]]; cbn [flat_map].
  - split; [constructor|reflexivity].
  - cbn [fst snd List.length]. destruct (schema.rd_reject d k v);
      cbn [diag.FromErr app List.length]; split.
    + constructor; [reflexivity|exact IH1].
    + lia.
    + exact IH1.
    + lia.
Qed.

Lemma Read_errors m w :
  let r := resourceStripeWebhookEndpointRead m w in
  Forall (fun dg => diag.severity dg = diag.Error) (fst r) ∧
  (List.length (fst r) ≤ 5)%nat.
Proof.
  cbv zeta.
  destruct (client.Get m (calls w) (schema.Id (data w))) as [we|msg] eqn:H.
  - rewrite (Read_succeeds _ _ _ H). cbn [fst].
    destruct (refusals_errors (data w) (read_writes we)) as [H1 H2].
    split; [exact H1|exact H2].
  - rewrite (Read_fails _ _ _ H). cbn [fst diag.FromErr List.length].
    split; [repeat constructor|lia].
Qed.

Lemma FromErr_errors e (w : World) :
  Forall (fun dg => diag.severity dg = diag.Error) (fst (diag.FromErr e, w)) ∧
  (List.length (fst (diag.FromErr e, w)) ≤ 5)%nat.
Proof.
  destruct e; cbn [fst diag.FromErr List.length]; split;
    try lia; repeat constructor.
Qed.

(** X12: every diagnostic a handler returns is an error (no handler
    ever warns), and a handler returns at most five of them: one for a
    failed remote call or a refused precondition, up to five for the
    writes of Read. *)
Theorem handlers_report_errors_only m w :
  let bounded (r : diag.Diagnostics * World) :=
    Forall (fun dg => diag.severity dg = diag.Error) (fst r) ∧
    (List.length (fst r) ≤ 5)%nat in
  bounded (resourceStripeWebhookEndpointRead m w) ∧
  bounded (resourceStripeWebhookEndpointCreate m w) ∧
  bounded (resourceStripeWebhookEndpointUpdate m w) ∧
  bounded (resourceStripeWebhookEndpointDelete m w).
Proof.
  cbv zeta. split; [apply Read_errors|]. split; [|split].
  - destruct (create_refused (data w)) eqn:Hg.
    + rewrite (Create_refuses _ _ Hg).
      apply (FromErr_errors
               (errors.New "disabled can be set when updating existing webhook only")).
    + destruct (Create_runs m w Hg) as (params & _ & ->). cbv zeta.
      destruct (client.New m (calls w) params) as [we|err].
      * destruct (schema.rd_reject (data w) "secret" _).
        -- apply FromErr_errors.
        -- apply Read_errors.
      * apply FromErr_errors.
  - destruct (Update_runs m w) as (params & _ & ->). cbv zeta.
    destruct (client.Update m (calls w) (schema.Id (data w)) params).
    + apply Read_errors.
    + apply FromErr_errors.
  - unfold resourceStripeWebhookEndpointDelete, bind, rd, ret,
      WebhookEndpoints_Del, d_SetId. cbv beta iota zeta.
    destruct (client.Del m (calls w) (schema.Id (data w))).
    + apply (FromErr_errors None).
    + apply FromErr_errors.
Qed.

Lemma read_writes_well_typed we :
  Forall (fun kv => well_typed_write kv = true) (read_writes we).
Proof. unfold read_writes. repeat constructor. Qed.

(** X13: every write a handler attempts is on an attribute that the
    schema of this resource declares, with a value of the declared
    type; Delete writes no field at all. *)
Theorem handlers_write_declared_fields m w :
  let typed (r : diag.Diagnostics * World) :=
    ∃ new, schema.rd_trace (data (snd r)) = schema.rd_trace (data w) ++ new ∧
           Forall (fun kv => well_typed_write kv = true) new in
  typed (resourceStripeWebhookEndpointRead m w) ∧
  typed (resourceStripeWebhookEndpointCreate m w) ∧
  typed (resourceStripeWebhookEndpointUpdate m w) ∧
  schema.rd_trace (data (snd (resourceStripeWebhookEndpointDelete m w))) =
    schema.rd_trace (data w).
Proof.
  cbv zeta.
  assert (HR : ∀ w0,
            ∃ new, schema.rd_trace
                     (data (snd (resourceStripeWebhookEndpointRead m w0))) =
                   schema.rd_trace (data w0) ++ new ∧
                   Forall (fun kv => well_typed_write kv = true) new).
  { intros w0. destruct (Read_world m w0) as (new & -> & Hnew).
    exists new. split; [apply write_all_frame|].
    destruct Hnew as [->|[we ->]]; [constructor|apply read_writes_well_typed]. }
  split; [apply HR|]. split; [|split].
  - destruct (create_refused (data w)) eqn:Hg.
    + rewrite (Create_refuses _ _ Hg). exists []. cbn [snd].
      rewrite app_nil_r. split; [reflexivity|constructor].
    + destruct (Create_runs m w Hg) as (params & _ & ->). cbv zeta.
      destruct (client.New m (calls w) params) as [we|err].
      * destruct (Set_frame "secret" (VString (stripe.we_Secret we)) (data w))
          as (_ & _ & _ & _ & _ & Htr & _). cbv zeta in Htr.
        destruct (schema.rd_reject (data w) "secret" _).
        -- exists [("secret", VString (stripe.we_Secret we))]. cbn [snd data].
           split; [exact Htr|repeat constructor].
        -- match goal with
           | |- context [resourceStripeWebhookEndpointRead m ?w0] =>
               destruct (HR w0) as (new & Hnew & Hty)
           end.
           exists (("secret", VString (stripe.we_Secret we)) :: new).
           rewrite Hnew. cbn [data schema.SetId schema.rd_trace].
           rewrite Htr, <- app_assoc. split; [reflexivity|].
           constructor; [reflexivity|exact Hty].
      * exists []. cbn [snd data]. rewrite app_nil_r.
        split; [reflexivity|constructor].
  - destruct (Update_runs m w) as (params & _ & ->). cbv zeta.
    destruct (client.Update m (calls w) (schema.Id (data w)) params).
    + match goal with
      | |- context [resourceStripeWebhookEndpointRead m ?w0] =>
          destruct (HR w0) as (new & Hnew & Hty)
      end.
      exists new. split; [exact Hnew|exact Hty].
    + exists []. cbn [snd data]. rewrite app_nil_r.
      split; [reflexivity|constructor].
  - unfold resourceStripeWebhookEndpointDelete, bind, rd, ret,
      WebhookEndpoints_Del, d_SetId. cbv beta iota zeta.
    destruct (client.Del m (calls w) (schema.Id (data w))); reflexivity.
Qed.

(** ** The schema *)

